(** * hash-auth: a shallow embedding of [index.ts] and [db.ts]

    The development follows the two source files of the server:

    - [index.ts]: [createEmailHash], [parseRequestBody], the process-wide
      [activeSessions] set, [createSessionToken] and the [fetch] handler
      with its seven routes;
    - [db.ts]: the [UserDatabase] class over the [users] table.

    Conventions.

    - A JavaScript string is modelled by the [string] of its UTF-8 bytes.
      On ASCII text (code points below 128) UTF-16 code units, UTF-8 bytes
      and the characters of [string] coincide; concatenation, equality
      and the search for an ASCII pattern act on the bytes as they act on
      the text.
    - The primitives of the platform that are not part of the repository
      are parameters of the development: the string methods that follow
      the Unicode tables ([toLowerCase], [toUpperCase], [trim]),
      [TextEncoder.encode], [crypto.subtle.digest], [Bun.password.hash]
      and [Bun.password.verify].  What [toLowerCase] and [trim] do on
      ASCII text is written out ([ascii_toLowerCase], [ascii_trim]) and
      enters the statements as a hypothesis on the runtime where it is
      needed.
    - [Math.random], [Date.now], the process environment and the clock of
      the database are inputs of each request ([env]).
    - Handlers run in a state-and-exception monad over [world]; every call
      that leaves the handler (body parsing, store access, password
      primitives, console output) is recorded in [trace]. *)

From stdpp Require Import base gmap strings list.
From Stdlib Require Import ZArith NArith Ascii String Lia.

Local Open Scope string_scope.
Local Open Scope Z_scope.

#[local] Set Warnings "-register-all".

(** ** Characters and strings of the language *)

Module JsString.

Definition code (c : ascii) : N := N_of_ascii c.

Definition is_upper (c : ascii) : bool :=
  ((65 <=? code c) && (code c <=? 90))%N.

Definition is_lower (c : ascii) : bool :=
  ((97 <=? code c) && (code c <=? 122))%N.

(** The WhiteSpace and LineTerminator code points of the language that
    lie in the ASCII range: TAB, LF, VT, FF, CR and SPACE. *)
Definition is_ascii_white_space (c : ascii) : bool :=
  ((9 <=? code c) && (code c <=? 13) || (code c =? 32))%N.

Definition lower_char (c : ascii) : ascii :=
  if is_upper c then ascii_of_N (code c + 32) else c.

Definition upper_char (c : ascii) : ascii :=
  if is_lower c then ascii_of_N (code c - 32) else c.

Fixpoint map_chars (f : ascii -> ascii) (s : string) : string :=
  match s with
  | EmptyString => EmptyString
  | String c s' => String (f c) (map_chars f s')
  end.

(** What [String.prototype.toLowerCase] does on ASCII text: the letters
    A to Z become a to z, nothing else moves. *)
Definition ascii_toLowerCase (s : string) : string := map_chars lower_char s.

Fixpoint ascii_trimStart (s : string) : string :=
  match s with
  | EmptyString => EmptyString
  | String c s' => if is_ascii_white_space c then ascii_trimStart s' else s
  end.

Fixpoint ascii_trimEnd (s : string) : string :=
  match s with
  | EmptyString => EmptyString
  | String c s' =>
      match ascii_trimEnd s' with
      | EmptyString => if is_ascii_white_space c then EmptyString else String c EmptyString
      | t => String c t
      end
  end.

(** What [String.prototype.trim] does on ASCII text. *)
Definition ascii_trim (s : string) : string := ascii_trimEnd (ascii_trimStart s).

Fixpoint drop_chars (n : nat) (s : string) : string :=
  match n, s with
  | O, _ => s
  | S _, EmptyString => EmptyString
  | S n', String _ s' => drop_chars n' s'
  end.

(** [s.substring(start)] with one argument: the suffix from [start]. *)
Definition substring_from (start : nat) (s : string) : string :=
  drop_chars start s.

(** [s.startsWith(pattern)]. *)
Fixpoint starts_with (pattern s : string) : bool :=
  match pattern, s with
  | EmptyString, _ => true
  | String _ _, EmptyString => false
  | String c p', String d s' => Ascii.eqb c d && starts_with p' s'
  end.

(** [s.replace(pattern, replacement)] with a string pattern: only the
    first occurrence of [pattern] is replaced.  The replacement strings
    used by the server contain no [$] pattern. *)
Fixpoint replace (pattern replacement s : string) : string :=
  if starts_with pattern s
  then replacement +:+ drop_chars (String.length pattern) s
  else match s with
       | EmptyString => EmptyString
       | String c s' => String c (replace pattern replacement s')
       end.

(** Digits of [Number.prototype.toString(radix)]. *)
Definition digit_char (d : N) : ascii :=
  if (d <? 10)%N then ascii_of_N (48 + d) else ascii_of_N (87 + d).

Fixpoint digits_loop (fuel : nat) (radix n : N) (acc : string) : string :=
  match fuel with
  | O => acc
  | S fuel' =>
      let acc' := String (digit_char (n mod radix)) acc in
      if (n / radix =? 0)%N then acc'
      else digits_loop fuel' radix (n / radix) acc'
  end.

(** [n.toString(radix)] for a non-negative integer [n]. *)
Definition N_toString (radix n : N) : string :=
  digits_loop (S (N.to_nat (N.log2 n))) radix n EmptyString.

(** [n.toString(radix)] for an integer-valued number [n]. *)
Definition toString_radix (radix : N) (n : Z) : string :=
  if n <? 0 then String "-" (N_toString radix (Z.abs_N n))
  else N_toString radix (Z.abs_N n).

Fixpoint repeat_char (n : nat) (c : ascii) : string :=
  match n with
  | O => EmptyString
  | S n' => String c (repeat_char n' c)
  end.

(** [s.padStart(targetLength, c)] for a one-character filler [c]. *)
Definition padStart (targetLength : nat) (c : ascii) (s : string) : string :=
  repeat_char (targetLength - String.length s) c +:+ s.

(** [Array.prototype.join("")] over strings. *)
Fixpoint join_empty (l : list string) : string :=
  match l with
  | [] => EmptyString
  | s :: l' => s +:+ join_empty l'
  end.

End JsString.

Import JsString.

(** ** Values, exceptions and the handler monad *)

(** The values [request.json()] can produce, and [undefined] for an absent
    property.  Numbers are the integers a double holds exactly and prints
    in full (magnitude below [2 ^ 53]): the server only tests them for
    truthiness and interpolates them in log lines. *)
Inductive value : Type :=
| VUndefined
| VNull
| VBool (b : bool)
| VNum (n : Z)
| VStr (s : string)
| VArr (items : list value)
| VObj (props : list (string * value)).

Inductive js_error : Type :=
| TypeError (msg : string)
| RuntimeError (msg : string).

Inductive outcome (A : Type) : Type :=
| Ok (a : A)
| Throw (err : js_error).

Arguments Ok {A} a.
Arguments Throw {A} err.

(** ToBoolean. *)
Definition truthy (v : value) : bool :=
  match v with
  | VUndefined | VNull => false
  | VBool b => b
  | VNum n => negb (n =? 0)
  | VStr s => negb (String.eqb s "")
  | VArr _ | VObj _ => true
  end.

Fixpoint own_property (k : string) (props : list (string * value)) : option value :=
  match props with
  | [] => None
  | (k', v) :: props' => if String.eqb k k' then Some v else own_property k props'
  end.

(** [o?.k]: [undefined] when [o] is [null] or [undefined], and otherwise
    the property [k] of [o].  Only objects parsed from JSON carry the keys
    the server reads ([email], [password], [currentPassword],
    [newPassword]). *)
Definition get_optional (o : value) (k : string) : value :=
  match o with
  | VObj props =>
      match own_property k props with
      | Some v => v
      | None => VUndefined
      end
  | _ => VUndefined
  end.

Notation "o ?. k" := (get_optional o k) (at level 9, k at level 0, format "o ?. k").

(** ToString, as applied to the substitutions of a template literal.  An
    object parsed from JSON whose own [toString] property shadows the
    inherited method has no primitive value. *)
Fixpoint ToString (v : value) : outcome string :=
  match v with
  | VUndefined => Ok "undefined"
  | VNull => Ok "null"
  | VBool true => Ok "true"
  | VBool false => Ok "false"
  | VNum n => Ok (toString_radix 10 n)
  | VStr s => Ok s
  | VArr items =>
      (fix join (l : list value) : outcome string :=
         match l with
         | [] => Ok ""
         | x :: l' =>
             match (match x with
                    | VUndefined | VNull => Ok ""
                    | _ => ToString x
                    end) with
             | Throw err => Throw err
             | Ok sx =>
                 match l' with
                 | [] => Ok sx
                 | _ :: _ =>
                     match join l' with
                     | Throw err => Throw err
                     | Ok rest => Ok (sx +:+ "," +:+ rest)
                     end
                 end
             end
         end) items
  | VObj props =>
      match own_property "toString" props with
      | Some _ => Throw (TypeError "Cannot convert object to primitive value")
      | None => Ok "[object Object]"
      end
  end.

(** ** The runtime *)

(** Primitives of the platform the server calls.  The three string
    methods and [TextEncoder_encode] act on text of any script.
    [Bun_password_hash] receives the entropy it draws for its salt as
    second argument; both password primitives receive whatever value the
    request body holds. *)
Class Runtime : Type := {
  String_toLowerCase : string -> string;
  String_toUpperCase : string -> string;
  String_trim : string -> string;
  TextEncoder_encode : string -> list N;
  digest_SHA256 : list N -> list N;
  Bun_password_hash : value -> string -> outcome string;
  Bun_password_verify : value -> string -> outcome bool
}.

(** What a request reads from outside the process state. *)
Record env : Type := Env {
  env_EMAIL_SALT : option string;      (* process.env.EMAIL_SALT *)
  Math_random_36 : string;             (* Math.random().toString(36) *)
  Date_now : Z;                        (* Date.now() *)
  password_entropy : string;           (* salt drawn by Bun.password.hash *)
  CURRENT_TIMESTAMP : string           (* clock of the database *)
}.

(** ** db.ts: [UserDatabase] *)

Module UserDatabase.

Record row : Type := Row {
  id : Z;
  email_hash : string;
  password_hash : string;
  created_at : string
}.

(** The [users] table in rowid order, and the largest rowid ever used
    (AUTOINCREMENT). *)
Record t : Type := Table {
  rows : list row;
  sequence : Z
}.

Definition getUserByEmailHash (emailHash : string) (db : t) : option row :=
  List.find (fun r => String.eqb (email_hash r) emailHash) (rows db).

(** INSERT; the UNIQUE constraint on [email_hash] makes the statement
    fail when the hash is already present.  Returns [lastInsertRowid]. *)
Definition addUser (now emailHash passwordHash : string) (db : t) : outcome (Z * t) :=
  match getUserByEmailHash emailHash db with
  | Some _ => Throw (RuntimeError "UNIQUE constraint failed: users.email_hash")
  | None =>
      let rowid := sequence db + 1 in
      Ok (rowid,
          {| rows := rows db ++ [Row rowid emailHash passwordHash now];
             sequence := rowid |})
  end.

Definition getAllUsers (db : t) : list row := rows db.

Definition updatePassword (emailHash newPasswordHash : string) (db : t) : t :=
  {| rows := List.map (fun r =>
                 if String.eqb (email_hash r) emailHash
                 then Row (id r) (email_hash r) newPasswordHash (created_at r)
                 else r) (rows db);
     sequence := sequence db |}.

Definition row_to_value (r : row) : value :=
  VObj [("id", VNum (id r)); ("email_hash", VStr (email_hash r));
        ("password_hash", VStr (password_hash r));
        ("created_at", VStr (created_at r))].

End UserDatabase.

(** ** Process state and effects *)

Inductive event : Type :=
| EvRequestJson
| EvConsoleLog (msg : string)
| EvConsoleError (err : js_error)
| EvPasswordHash (password : value)
| EvPasswordVerify (password : value) (hash : string)
| EvGetUserByEmailHash (emailHash : string)
| EvAddUser (emailHash passwordHash : string)
| EvGetAllUsers
| EvUpdatePassword (emailHash newPasswordHash : string).

Record world : Type := World {
  userDb : UserDatabase.t;
  activeSessions : gset string;
  trace : list event
}.

Definition M (A : Type) : Type := world -> outcome A * world.

#[global] Instance M_ret : MRet M := fun A (a : A) w => (Ok a, w).

#[global] Instance M_bind : MBind M :=
  fun A B (k : A -> M B) (m : M A) w =>
    match m w with
    | (Ok a, w') => k a w'
    | (Throw err, w') => (Throw err, w')
    end.

Definition lift {A} (o : outcome A) : M A := fun w => (o, w).

(** A primitive step on the process state. *)
Definition step {A} (f : world -> outcome A * world) : M A := f.

Definition emit (e : event) : M unit :=
  fun w => (Ok tt, World (userDb w) (activeSessions w) (trace w ++ [e])).

Definition console_log (msg : string) : M unit := emit (EvConsoleLog msg).

(** ** index.ts *)

Record request : Type := Request {
  method : string;
  pathname : string;                   (* new URL(request.url).pathname *)
  authorization : option string;       (* request.headers.get("authorization") *)
  json_body : option value             (* request.json(); None when it rejects *)
}.

Record response : Type := Response {
  status : Z;
  headers : list (string * string);
  body : option value                  (* the value given to JSON.stringify *)
}.

Definition corsHeaders : list (string * string) :=
  [("Access-Control-Allow-Origin", "*");
   ("Access-Control-Allow-Methods", "GET, POST, OPTIONS");
   ("Access-Control-Allow-Headers", "Content-Type, Authorization")].

Definition json_response (st : Z) (payload : value) : response :=
  Response st (("Content-Type", "application/json") :: corsHeaders) (Some payload).

Definition error_response (st : Z) (msg : string) : response :=
  json_response st (VObj [("error", VStr msg)]).

Definition fallback_salt : string := "fallback_salt_value_if_not_set_in_env".

(** The bytes a [string] holds. *)
Definition string_bytes (s : string) : list N :=
  List.map code (list_ascii_of_string s).

(** [byte.toString(16).padStart(2, "0")], joined. *)
Definition hex_string (bytes : list N) : string :=
  join_empty (List.map (fun byte => padStart 2 "0" (N_toString 16 byte)) bytes).

Section Server.

Context {R : Runtime}.

Definition createEmailHash (salt_env : option string) (email : string) : string :=
  let EMAIL_SALT :=
    match salt_env with
    | Some s => if String.eqb s "" then fallback_salt else s
    | None => fallback_salt
    end in
  let normalizedEmail := String_trim (String_toLowerCase email) in
  let saltedEmail := EMAIL_SALT +:+ normalizedEmail +:+ EMAIL_SALT in
  let data := TextEncoder_encode saltedEmail in
  let hashBuffer := digest_SHA256 data in
  hex_string hashBuffer.

(** A call of [createEmailHash] with a value of the request body: the type
    annotation is erased, and [email.toLowerCase()] exists on strings only. *)
Definition createEmailHash_call (e : env) (email : value) : M string :=
  match email with
  | VStr s => mret (createEmailHash (env_EMAIL_SALT e) s)
  | _ => lift (Throw (TypeError "email.toLowerCase is not a function"))
  end.

Definition parseRequestBody (req : request) : M value :=
  emit EvRequestJson;;
  mret (match json_body req with
        | Some v => v
        | None => VNull
        end).

Definition createSessionToken (e : env) : string :=
  substring_from 2 (Math_random_36 e) +:+ toString_radix 36 (Date_now e).

Definition sessions_add (token : string) : M unit :=
  fun w => (Ok tt, World (userDb w) ({[token]} ∪ activeSessions w) (trace w)).

Definition sessions_delete (token : string) : M unit :=
  fun w => (Ok tt, World (userDb w) (activeSessions w ∖ {[token]}) (trace w)).

Definition sessions_has (token : string) : M bool :=
  fun w => (Ok (bool_decide (token ∈ activeSessions w)), w).

(** [request.headers.get("authorization")?.replace("Bearer ", "")]. *)
Definition bearer_token (req : request) : option string :=
  match authorization req with
  | Some h => Some (replace "Bearer " "" h)
  | None => None
  end.

(** [sessionToken && activeSessions.has(sessionToken)]. *)
Definition session_ok (sessionToken : option string) : M bool :=
  match sessionToken with
  | Some t => if String.eqb t "" then mret false else sessions_has t
  | None => mret false
  end.

Definition password_hash_call (e : env) (password : value) : M string :=
  emit (EvPasswordHash password);;
  lift (Bun_password_hash password (password_entropy e)).

Definition password_verify_call (password : value) (hash : string) : M bool :=
  emit (EvPasswordVerify password hash);;
  lift (Bun_password_verify password hash).

Definition db_getUserByEmailHash (emailHash : string) : M (option UserDatabase.row) :=
  emit (EvGetUserByEmailHash emailHash);;
  step (fun w => (Ok (UserDatabase.getUserByEmailHash emailHash (userDb w)), w)).

Definition db_addUser (e : env) (emailHash passwordHash : string) : M Z :=
  emit (EvAddUser emailHash passwordHash);;
  step (fun w =>
    match UserDatabase.addUser (CURRENT_TIMESTAMP e) emailHash passwordHash (userDb w) with
    | Ok (rowid, db') => (Ok rowid, World db' (activeSessions w) (trace w))
    | Throw err => (Throw err, w)
    end).

Definition db_getAllUsers : M (list UserDatabase.row) :=
  emit EvGetAllUsers;;
  step (fun w => (Ok (UserDatabase.getAllUsers (userDb w)), w)).

Definition db_updatePassword (emailHash newPasswordHash : string) : M unit :=
  emit (EvUpdatePassword emailHash newPasswordHash);;
  step (fun w => (Ok tt,
            World (UserDatabase.updatePassword emailHash newPasswordHash (userDb w))
                  (activeSessions w) (trace w))).

(** A log line made of a fixed text and one interpolated value. *)
Definition console_log_with (prefix : string) (v : value) (suffix : string) : M unit :=
  s ← lift (ToString v);
  console_log (prefix +:+ s +:+ suffix).

Definition handle_register (e : env) (req : request) : M response :=
  requestBody ← parseRequestBody req;
  if negb (truthy requestBody?."email") || negb (truthy requestBody?."password")
  then mret (error_response 400 "Email and password required")
  else
    let email := requestBody?."email" in
    let password := requestBody?."password" in
    console_log_with "Registration request received for: " email "";;
    emailHash ← createEmailHash_call e email;
    passwordHash ← password_hash_call e password;
    existingUser ← db_getUserByEmailHash emailHash;
    match existingUser with
    | Some _ =>
        console_log_with "Registration denied - email already registered: " email "";;
        mret (error_response 400 "User already exists")
    | None =>
        lastInsertRowid ← db_addUser e emailHash passwordHash;
        console_log_with "User registration successful: " email
          (" (ID: " +:+ toString_radix 10 lastInsertRowid +:+ ")");;
        let sessionToken := createSessionToken e in
        sessions_add sessionToken;;
        mret (json_response 200
                (VObj [("success", VBool true);
                       ("message", VStr "User registered successfully");
                       ("sessionId", VStr sessionToken)]))
    end.

Definition handle_login (e : env) (req : request) : M response :=
  requestBody ← parseRequestBody req;
  if negb (truthy requestBody?."email") || negb (truthy requestBody?."password")
  then mret (error_response 400 "Email and password required")
  else
    let email := requestBody?."email" in
    let password := requestBody?."password" in
    console_log_with "Login attempt for user: " email "";;
    emailHash ← createEmailHash_call e email;
    user ← db_getUserByEmailHash emailHash;
    match user with
    | None =>
        console_log_with "Login failed - user not found: " email "";;
        mret (error_response 401 "Invalid credentials")
    | Some u =>
        isPasswordValid ← password_verify_call password (UserDatabase.password_hash u);
        if negb isPasswordValid
        then
          console_log_with "Login failed - incorrect password: " email "";;
          mret (error_response 401 "Invalid credentials")
        else
          let sessionToken := createSessionToken e in
          sessions_add sessionToken;;
          console_log_with "Login successful for user: " email "";;
          mret (json_response 200
                  (VObj [("success", VBool true);
                         ("message", VStr "Login successful");
                         ("sessionId", VStr sessionToken)]))
    end.

Definition handle_users (req : request) : M response :=
  let sessionToken := bearer_token req in
  ok ← session_ok sessionToken;
  if negb ok
  then mret (error_response 401 "Authentication required")
  else
    allUsers ← db_getAllUsers;
    console_log ("User list requested - Total users: "
                 +:+ toString_radix 10 (Z.of_nat (List.length allUsers)));;
    mret (json_response 200
            (VObj [("success", VBool true);
                   ("message",
                    VStr "All users retrieved (showing hashed data for security proof)");
                   ("users", VArr (List.map UserDatabase.row_to_value allUsers));
                   ("total_users", VNum (Z.of_nat (List.length allUsers)));
                   ("security_note",
                    VStr "Emails: SHA-256 + deterministic salt, Passwords: Argon2id + random salt")])).

Definition handle_reset_password (e : env) (req : request) : M response :=
  let sessionToken := bearer_token req in
  ok ← session_ok sessionToken;
  if negb ok
  then mret (error_response 401 "Authentication required")
  else
    requestBody ← parseRequestBody req;
    if negb (truthy requestBody?."email")
       || negb (truthy requestBody?."currentPassword")
       || negb (truthy requestBody?."newPassword")
    then mret (error_response 400 "Email, current password, and new password required")
    else
      let email := requestBody?."email" in
      console_log_with "Password reset request for user: " email "";;
      emailHash ← createEmailHash_call e email;
      user ← db_getUserByEmailHash emailHash;
      match user with
      | None =>
          console_log_with "Password reset failed - user not found: " email "";;
          mret (error_response 404 "User not found")
      | Some u =>
          isCurrentPasswordValid ←
            password_verify_call requestBody?."currentPassword"
                                 (UserDatabase.password_hash u);
          if negb isCurrentPasswordValid
          then
            console_log_with "Password reset failed - incorrect current password: " email "";;
            mret (error_response 401 "Current password is incorrect")
          else
            newPasswordHash ← password_hash_call e requestBody?."newPassword";
            db_updatePassword emailHash newPasswordHash;;
            console_log_with "Password reset completed for user: " email "";;
            mret (json_response 200
                    (VObj [("success", VBool true);
                           ("message", VStr "Password updated successfully")]))
      end.

Definition handle_logout (req : request) : M response :=
  let sessionToken := bearer_token req in
  ok ← session_ok sessionToken;
  if (ok : bool)
  then
    sessions_delete (default "" sessionToken);;
    console_log "User logout completed successfully";;
    mret (json_response 200
            (VObj [("success", VBool true);
                   ("message", VStr "Logged out successfully")]))
  else mret (error_response 400 "No active session found").

(** [requestBody.email.toUpperCase()]. *)
Definition toUpperCase_call (email : value) : M value :=
  match email with
  | VStr s => mret (VStr (String_toUpperCase s))
  | _ => lift (Throw (TypeError "requestBody.email.toUpperCase is not a function"))
  end.

Definition handle_debug_test_hash (e : env) (req : request) : M response :=
  requestBody ← parseRequestBody req;
  if negb (truthy requestBody?."email")
  then mret (error_response 400 "Email required")
  else
    let email := requestBody?."email" in
    firstHash ← createEmailHash_call e email;
    secondHash ← createEmailHash_call e email;
    upper ← toUpperCase_call email;
    upperCaseHash ← createEmailHash_call e upper;
    let consistent := String.eqb firstHash secondHash && String.eqb secondHash upperCaseHash in
    mret (json_response 200
            (VObj [("email", email);
                   ("hash1", VStr firstHash);
                   ("hash2", VStr secondHash);
                   ("hash3", VStr upperCaseHash);
                   ("same_email_same_hash", VBool (String.eqb firstHash secondHash));
                   ("case_insensitive", VBool (String.eqb firstHash upperCaseHash));
                   ("deterministic", VBool consistent);
                   ("message",
                    VStr (if consistent
                          then "Email hashing is working correctly"
                          else "Email hashing has issues"))])).

(** The quotation mark of the JSON samples in the documentation. *)
Definition dquote : string := String "034" EmptyString.

Definition example_request (path : string) : string :=
  "POST " +:+ path +:+ " with {" +:+ dquote +:+ "email" +:+ dquote +:+ ": "
  +:+ dquote +:+ "user@example.com" +:+ dquote +:+ ", "
  +:+ dquote +:+ "password" +:+ dquote +:+ ": "
  +:+ dquote +:+ "securepass123" +:+ dquote +:+ "}".

Definition api_documentation : value :=
  VObj [("message", VStr "Secure Authentication API");
        ("version", VStr "1.0.0");
        ("security",
         VObj [("email_hashing", VStr "SHA-256 with deterministic salt");
               ("password_hashing", VStr "Argon2id with random salt");
               ("duplicate_prevention", VStr "Enabled via deterministic email hashing")]);
        ("endpoints",
         VObj [("POST /register", VStr "Register new user (email, password)");
               ("POST /login", VStr "Login user (email, password)");
               ("GET /users",
                VStr "Get all users - protected (Authorization: Bearer <sessionId>)");
               ("POST /reset-password",
                VStr "Reset password - protected (email, currentPassword, newPassword)");
               ("POST /logout", VStr "Logout user - protected");
               ("POST /debug/test-hash", VStr "Test email hashing - development only")]);
        ("example_usage",
         VObj [("register",
                VStr (example_request "/register"));
               ("login",
                VStr (example_request "/login"));
               ("protected_request",
                VStr "Add header: Authorization: Bearer <sessionId_from_login>")])].

Definition route_not_found : response :=
  json_response 404
    (VObj [("error", VStr "Route not found");
           ("available_routes",
            VArr [VStr "/"; VStr "/register"; VStr "/login"; VStr "/users";
                  VStr "/reset-password"; VStr "/logout"])]).

(** The body of the [try] block of [fetch]. *)
Definition route (e : env) (req : request) : M response :=
  let on (path verb : string) :=
    String.eqb (pathname req) path && String.eqb (method req) verb in
  if on "/register" "POST" then handle_register e req
  else if on "/login" "POST" then handle_login e req
  else if on "/users" "GET" then handle_users req
  else if on "/reset-password" "POST" then handle_reset_password e req
  else if on "/logout" "POST" then handle_logout req
  else if on "/debug/test-hash" "POST" then handle_debug_test_hash e req
  else if on "/" "GET" then mret (json_response 200 api_documentation)
  else mret route_not_found.

Definition internal_server_error : response :=
  json_response 500
    (VObj [("error", VStr "Internal server error");
           ("message", VStr "Something went wrong on the server")]).

Definition fetch (e : env) (req : request) (w : world) : response * world :=
  if String.eqb (method req) "OPTIONS"
  then (Response 200 corsHeaders None, w)
  else
    match route e req w with
    | (Ok resp, w') => (resp, w')
    | (Throw err, w') =>
        (internal_server_error,
         World (userDb w') (activeSessions w') (trace w' ++ [EvConsoleError err]))
    end.

End Server.

(** ** An executable runtime

    SHA-256 (FIPS 180-4) over bytes, for [crypto.subtle.digest], with
    32-bit words as [N] and the wrap-around written out. *)

Module SHA256.

Local Open Scope N_scope.

Definition w32 (x : N) : N := x mod 2 ^ 32.

Definition add32 (x y : N) : N := w32 (x + y).

Definition rotr (n x : N) : N :=
  w32 (N.lor (N.shiftr x n) (N.shiftl x (32 - n))).

Definition Ch (x y z : N) : N :=
  N.lxor (N.land x y) (N.land (N.lxor x 0xffffffff) z).

Definition Maj (x y z : N) : N :=
  N.lxor (N.lxor (N.land x y) (N.land x z)) (N.land y z).

Definition Sigma0 (x : N) : N := N.lxor (N.lxor (rotr 2 x) (rotr 13 x)) (rotr 22 x).
Definition Sigma1 (x : N) : N := N.lxor (N.lxor (rotr 6 x) (rotr 11 x)) (rotr 25 x).
Definition sigma0 (x : N) : N := N.lxor (N.lxor (rotr 7 x) (rotr 18 x)) (N.shiftr x 3).
Definition sigma1 (x : N) : N := N.lxor (N.lxor (rotr 17 x) (rotr 19 x)) (N.shiftr x 10).

(** The constants are taken from the primes, as the standard defines
    them: the first 32 bits of the fractional parts of the cube roots of
    the first 64 primes, and of the square roots of the first 8. *)
Definition is_prime (n : nat) : bool :=
  List.forallb (fun d => negb (Nat.eqb (Nat.modulo n d) 0)) (List.seq 2 (n - 2)).

Definition primes (count : nat) : list N :=
  List.map N.of_nat (List.firstn count (List.filter is_prime (List.seq 2 310))).

(** Largest [r] below [2 ^ bits] with [r ^ 3 <= n], bit by bit. *)
Fixpoint cube_root_loop (bits : nat) (n r : N) : N :=
  match bits with
  | O => r
  | S b =>
      let c := N.lor r (N.shiftl 1 (N.of_nat b)) in
      cube_root_loop b n (if c * c * c <=? n then c else r)
  end.

Definition cube_root (n : N) : N := cube_root_loop 40 n 0.

Definition K : list N :=
  Eval vm_compute in List.map (fun p => w32 (cube_root (p * 2 ^ 96))) (primes 64).

Definition H0 : list N :=
  Eval vm_compute in List.map (fun p => w32 (N.sqrt (p * 2 ^ 64))) (primes 8).

(** Big-endian bytes of [x], [n] of them. *)
Fixpoint be_bytes (n : nat) (x : N) : list N :=
  match n with
  | O => []
  | S n' => (N.shiftr x (8 * N.of_nat n')) mod 256 :: be_bytes n' x
  end.

Definition be_word (bytes : list N) : N :=
  List.fold_left (fun acc b => acc * 256 + b mod 256) bytes 0.

(** The message, [0x80], zero bytes up to 56 modulo 64, and the length in
    bits on eight bytes. *)
Definition pad (msg : list N) : list N :=
  let len := N.of_nat (List.length msg) in
  let zeros := (55 + 64 - len mod 64) mod 64 in
  msg ++ [0x80] ++ List.repeat 0 (N.to_nat zeros) ++ be_bytes 8 (8 * len).

Fixpoint chunks (fuel size : nat) (l : list N) : list (list N) :=
  match fuel with
  | O => []
  | S fuel' =>
      match l with
      | [] => []
      | _ => List.firstn size l :: chunks fuel' size (List.skipn size l)
      end
  end.

(** The message schedule, most recent word first. *)
Fixpoint extend (n : nat) (rev_w : list N) : list N :=
  match n with
  | O => rev_w
  | S n' =>
      let at_ (i : nat) := List.nth i rev_w 0 in
      let w := add32 (add32 (sigma1 (at_ 1%nat)) (at_ 6%nat))
                     (add32 (sigma0 (at_ 14%nat)) (at_ 15%nat)) in
      extend n' (w :: rev_w)
  end.

Definition schedule (block : list N) : list N :=
  List.rev (extend 48 (List.rev (List.map be_word (chunks 16 4 block)))).

Definition round (st : list N) (kw : N * N) : list N :=
  match st with
  | [a; b; c; d; e; f; g; h] =>
      let t1 := add32 (add32 (add32 h (Sigma1 e)) (add32 (Ch e f g) (fst kw))) (snd kw) in
      let t2 := add32 (Sigma0 a) (Maj a b c) in
      [add32 t1 t2; a; b; c; add32 d t1; e; f; g]
  | _ => st
  end.

Definition compress (h : list N) (block : list N) : list N :=
  let st := List.fold_left round (List.combine K (schedule block)) h in
  List.map (fun p => add32 (fst p) (snd p)) (List.combine h st).

Definition digest (msg : list N) : list N :=
  let padded := pad (List.map (fun b => b mod 256) msg) in
  let blocks := chunks (List.length padded) 64 padded in
  List.concat (List.map (be_bytes 4) (List.fold_left compress blocks H0)).

End SHA256.

(** Case mapping and trimming over UTF-8 bytes, for running the handlers.
    They follow the language on text made of ASCII, of the Latin-1
    supplement (two bytes, the first one 194 or 195) and of the dotless i
    (196 177), and on text that neither starts nor ends with white space
    from outside ASCII. *)

Module ModelString.

Local Open Scope N_scope.

(** The second byte of a capital letter of the Latin-1 supplement,
    U+00C0 to U+00DE without the multiplication sign. *)
Definition latin1_upper (d : ascii) : bool :=
  (128 <=? code d) && (code d <=? 158) && negb (code d =? 151).

(** The second byte of a small letter that has its capital in the
    supplement, U+00E0 to U+00FE without the division sign. *)
Definition latin1_lower (d : ascii) : bool :=
  (160 <=? code d) && (code d <=? 190) && negb (code d =? 183).

Fixpoint toLowerCase (s : string) : string :=
  match s with
  | EmptyString => EmptyString
  | String c s' =>
      match s' with
      | String d s'' =>
          if (code c =? 195) && latin1_upper d
          then String c (String (ascii_of_N (code d + 32)) (toLowerCase s''))
          else String (lower_char c) (toLowerCase s')
      | EmptyString => String (lower_char c) EmptyString
      end
  end.

(** Besides the letters that have their capital in the supplement: the
    sharp s becomes two letters, U+00FF, the micro sign and the dotless i
    have their capitals elsewhere. *)
Fixpoint toUpperCase (s : string) : string :=
  match s with
  | EmptyString => EmptyString
  | String c s' =>
      match s' with
      | String d s'' =>
          if (code c =? 195) && (code d =? 159)
          then String "S" (String "S" (toUpperCase s''))
          else if (code c =? 195) && latin1_lower d
          then String c (String (ascii_of_N (code d - 32)) (toUpperCase s''))
          else if (code c =? 195) && (code d =? 191)
          then String "197" (String "184" (toUpperCase s''))
          else if (code c =? 194) && (code d =? 181)
          then String "206" (String "156" (toUpperCase s''))
          else if (code c =? 196) && (code d =? 177)
          then String "I" (toUpperCase s'')
          else String (upper_char c) (toUpperCase s')
      | EmptyString => String (upper_char c) EmptyString
      end
  end.

Definition trim (s : string) : string := ascii_trim s.

End ModelString.

(** Password primitives with the interface of [Bun.password]: a
    self-describing encoded string that embeds the salt, a tag that
    depends on salt and password, and a verifier that re-derives the tag
    from the embedded salt.  The tag is a salted SHA-256 digest, not
    Argon2id.  A number is accepted as a password by [hash]; [verify]
    answers [false] for a password that is no string and for an empty
    encoded hash, and throws, as the runtime documents, for any other
    encoded hash that cannot be parsed. *)

Module ModelPassword.

Definition phc_prefix : string := "$argon2id$v=19$m=65536,t=2,p=1$".

Definition tag (salt password : string) : string :=
  hex_string (SHA256.digest (string_bytes (salt +:+ "$" +:+ password))).

Fixpoint split_on (c : ascii) (s : string) : option (string * string) :=
  match s with
  | EmptyString => None
  | String c' s' =>
      if Ascii.eqb c c' then Some (EmptyString, s')
      else match split_on c s' with
           | Some (l, r) => Some (String c' l, r)
           | None => None
           end
  end.

Definition hash (password : value) (entropy : string) : outcome string :=
  match password with
  | VStr p => Ok (phc_prefix +:+ entropy +:+ "$" +:+ tag entropy p)
  | VNum n => Ok (phc_prefix +:+ entropy +:+ "$" +:+ tag entropy (toString_radix 10 n))
  | _ => Throw (TypeError "password must be a string or TypedArray")
  end.

Definition verify (password : value) (encoded : string) : outcome bool :=
  match password with
  | VStr p =>
      if String.eqb encoded ""
      then Ok false
      else if starts_with phc_prefix encoded
      then match split_on "$" (drop_chars (String.length phc_prefix) encoded) with
           | Some (salt, tg) => Ok (String.eqb (tag salt p) tg)
           | None => Throw (RuntimeError "InvalidEncoding")
           end
      else Throw (RuntimeError "UnsupportedAlgorithm")
  | _ => Ok false
  end.

End ModelPassword.

Definition model_runtime : Runtime :=
  {| String_toLowerCase := ModelString.toLowerCase;
     String_toUpperCase := ModelString.toUpperCase;
     String_trim := ModelString.trim;
     TextEncoder_encode := string_bytes;
     digest_SHA256 := SHA256.digest;
     Bun_password_hash := ModelPassword.hash;
     Bun_password_verify := ModelPassword.verify |}.

(** Sample inputs used to run the handlers. *)

Definition sample_env : env :=
  {| env_EMAIL_SALT := Some "pepper";
     Math_random_36 := "0.4fzyo82mvyr";
     Date_now := 1762128000000;
     password_entropy := "c2FsdHNhbHQ";
     CURRENT_TIMESTAMP := "2025-11-03 00:00:00" |}.

Definition later_env : env :=
  {| env_EMAIL_SALT := Some "pepper";
     Math_random_36 := "0.k3v9x1q7a2b";
     Date_now := 1762128060000;
     password_entropy := "cGVwcGVyMTI";
     CURRENT_TIMESTAMP := "2025-11-03 00:01:00" |}.

Definition empty_world : world :=
  {| userDb := UserDatabase.Table [] 0; activeSessions := ∅; trace := [] |}.

Definition credentials (email password : string) : value :=
  VObj [("email", VStr email); ("password", VStr password)].

Definition post (path : string) (auth : option string) (payload : value) : request :=
  {| method := "POST"; pathname := path; authorization := auth;
     json_body := Some payload |}.

Definition get (path : string) (auth : option string) : request :=
  {| method := "GET"; pathname := path; authorization := auth;
     json_body := None |}.

Definition register_sample : request :=
  post "/register" None (credentials "user@example.com" "pw1").

(** The state after one registration in an empty store. *)
Definition registered_world : world :=
  snd (@fetch model_runtime sample_env register_sample empty_world).

Definition sample_token : string := createSessionToken sample_env.

Definition sample_email_hash : string :=
  @createEmailHash model_runtime (Some "pepper") "user@example.com".

Definition sample_password_hash : string :=
  Eval vm_compute in
    match ModelPassword.hash (VStr "pw1") (password_entropy sample_env) with
    | Ok encoded => encoded
    | Throw _ => EmptyString
    end.

Definition sample_row : UserDatabase.row :=
  UserDatabase.Row 1 sample_email_hash sample_password_hash "2025-11-03 00:00:00".

(** A store whose only record holds a string that is no encoded hash. *)
Definition malformed_row : UserDatabase.row :=
  UserDatabase.Row 1 sample_email_hash "not-an-encoded-hash" "2025-11-03 00:00:00".

Definition malformed_world : world :=
  {| userDb := UserDatabase.Table [malformed_row] 1;
     activeSessions := {[sample_token]};
     trace := [] |}.

(** ** Predicates used in the statements *)

Fixpoint all_chars (p : ascii -> bool) (s : string) : bool :=
  match s with
  | EmptyString => true
  | String c s' => p c && all_chars p s'
  end.

(** Padding: a string of the white space of ASCII only. *)
Definition white_space_only (s : string) : bool := all_chars is_ascii_white_space s.

(** Text of ASCII characters only. *)
Definition ascii_text (s : string) : bool := all_chars (fun c => (code c <? 128)%N) s.

(** The lower-casing and trimming of a runtime are those of the language
    on ASCII text. *)
Definition ascii_laws {R : Runtime} : Prop :=
  forall s, ascii_text s = true ->
    String_toLowerCase s = ascii_toLowerCase s /\ String_trim s = ascii_trim s.

(** Two characters that are equal or are the two cases of one ASCII
    letter. *)
Definition same_letter (c d : ascii) : bool :=
  Ascii.eqb c d
  || (is_upper c && Ascii.eqb d (ascii_of_N (code c + 32)))
  || (is_upper d && Ascii.eqb c (ascii_of_N (code d + 32))).

(** Two strings that differ in the case of ASCII letters only. *)
Fixpoint case_variant (u s : string) : bool :=
  match u, s with
  | EmptyString, EmptyString => true
  | String c u', String d s' => same_letter c d && case_variant u' s'
  | _, _ => false
  end.

(** [s.indexOf(pattern)]: position of the first occurrence. *)
Fixpoint indexOf (pattern s : string) : option nat :=
  if starts_with pattern s then Some O
  else match s with
       | EmptyString => None
       | String _ s' => option_map S (indexOf pattern s')
       end.

Fixpoint take_chars (n : nat) (s : string) : string :=
  match n, s with
  | O, _ => EmptyString
  | S _, EmptyString => EmptyString
  | S n', String c s' => String c (take_chars n' s')
  end.

(** The number a text of digits denotes in a radix, most significant
    digit first, continuing from [v]. *)
Definition digit_value (c : ascii) : N :=
  if (code c <? 58)%N then (code c - 48)%N else (code c - 87)%N.

Fixpoint radix_value (radix : N) (s : string) (v : N) : N :=
  match s with
  | EmptyString => v
  | String c s' => radix_value radix s' (v * radix + digit_value c)%N
  end.

(** Characters of a number written in radix 36, with its sign and
    fraction point. *)
Definition radix36_char (c : ascii) : bool :=
  ((48 <=? code c) && (code c <=? 57) || is_lower c
   || (code c =? 45) || (code c =? 46))%N.

(** [Math.random().toString(36)] is such a text. *)
Definition env_ok (e : env) : bool := all_chars radix36_char (Math_random_36 e).

(** States of the process: it starts with an empty session set over
    whatever the database file holds, and serves requests one at a time. *)
Inductive reachable {R : Runtime} : world -> Prop :=
| reachable_start (db : UserDatabase.t) :
    reachable (World db ∅ [])
| reachable_fetch (e : env) (req : request) (w : world) :
    reachable w -> env_ok e = true -> reachable (snd (fetch e req w)).

(** What [parseRequestBody] returns for a request. *)
Definition parsed_body (req : request) : value :=
  match json_body req with
  | Some v => v
  | None => VNull
  end.

Definition targets (req : request) (verb path : string) : Prop :=
  method req = verb /\ pathname req = path.

(** A body with a non-empty string [email] and a truthy [password]. *)
Definition carries_credentials (req : request) (email : string) (password : value) : Prop :=
  (parsed_body req)?."email" = VStr email /\ email <> EmptyString
  /\ (parsed_body req)?."password" = password /\ truthy password = true.

(** A body with the three fields of a password change. *)
Definition carries_reset (req : request) (email : string) (current new : value) : Prop :=
  (parsed_body req)?."email" = VStr email /\ email <> EmptyString
  /\ (parsed_body req)?."currentPassword" = current /\ truthy current = true
  /\ (parsed_body req)?."newPassword" = new /\ truthy new = true.

(** The guard of the protected routes,
    [sessionToken && activeSessions.has(sessionToken)], as a function of
    the state. *)
Definition token_accepted (sessionToken : option string) (w : world) : bool :=
  match sessionToken with
  | Some t => negb (String.eqb t EmptyString) && bool_decide (t ∈ activeSessions w)
  | None => false
  end.

(** The state [w] after the events [evs] and nothing else. *)
Definition traced (evs : list event) (w : world) : world :=
  World (userDb w) (activeSessions w) (trace w ++ evs).

Definition log_line (prefix s suffix : string) : event :=
  EvConsoleLog (prefix +:+ s +:+ suffix).

Definition session_response (message token : string) : response :=
  json_response 200
    (VObj [("success", VBool true); ("message", VStr message);
           ("sessionId", VStr token)]).

Definition logout_response : response :=
  json_response 200
    (VObj [("success", VBool true); ("message", VStr "Logged out successfully")]).

Definition unauthorized_response : response :=
  error_response 401 "Authentication required".

(** ** The store, the encoding of digests and the start of the process *)

(** What identifies a record for good: no route changes these columns. *)
Definition row_key (r : UserDatabase.row) : Z * string * string :=
  (UserDatabase.id r, UserDatabase.email_hash r, UserDatabase.created_at r).

(** The row [r] with its [password_hash] column set, as UPDATE leaves it. *)
Definition set_password (newPasswordHash : string) (r : UserDatabase.row) : UserDatabase.row :=
  UserDatabase.Row (UserDatabase.id r) (UserDatabase.email_hash r) newPasswordHash
                   (UserDatabase.created_at r).

(** The constraints of the [users] table: [email_hash] is UNIQUE, [id] is
    the primary key, and no rowid exceeds the AUTOINCREMENT sequence. *)
Definition store_ok (db : UserDatabase.t) : Prop :=
  NoDup (List.map UserDatabase.email_hash (UserDatabase.rows db))
  /\ NoDup (List.map UserDatabase.id (UserDatabase.rows db))
  /\ Forall (fun r => UserDatabase.id r <= UserDatabase.sequence db)
            (UserDatabase.rows db).

(** Reading two hexadecimal digits per byte back. *)
Fixpoint hex_decode (s : string) : list N :=
  match s with
  | String a (String b s') => (16 * digit_value a + digit_value b)%N :: hex_decode s'
  | _ => []
  end.

Definition hex_char (c : ascii) : bool :=
  ((48 <=? code c) && (code c <=? 57) || (97 <=? code c) && (code c <=? 102))%N.

(** The two characters written for a byte are hexadecimal digits that
    denote it. *)
Definition hex_pair_ok (b : N) : bool :=
  match padStart 2 "0" (N_toString 16 b) with
  | String a (String c EmptyString) =>
      hex_char a && hex_char c && N.eqb (16 * digit_value a + digit_value c) b
  | _ => false
  end.

Definition all_bytes (bytes : list N) : bool :=
  List.forallb (fun b => (b <? 256)%N) bytes.

(** The statuses and headers the server answers with: the preflight
    answer has the CORS headers and no body, every other answer is JSON. *)
Definition well_shaped (r : response) : Prop :=
  In (status r) [200; 400; 401; 404; 500]
  /\ ((headers r = corsHeaders /\ body r = None)
      \/ (headers r = ("Content-Type", "application/json") :: corsHeaders
          /\ body r <> None)).

(** The lines printed when the module is loaded, after [Bun.serve]
    returned a server on port 5000. *)
Definition server_port : Z := 5000.

Definition salt_warning : string :=
  "Warning: Using fallback EMAIL_SALT. Set EMAIL_SALT environment variable in production!".

Definition startup (salt_env : option string) : list string :=
  let port := toString_radix 10 server_port in
  ["Server running at http://localhost:" +:+ port;
   "API Documentation available at: http://localhost:" +:+ port +:+ "/";
   "Debug email hashing at: POST http://localhost:" +:+ port +:+ "/debug/test-hash";
   "Database: users.db (SQLite)";
   "Security: Deterministic email hashing + Random password salting"]
  ++ match salt_env with
     | Some s => if String.eqb s EmptyString then [salt_warning] else []
     | None => [salt_warning]
     end.

(** The seven routes of [fetch], as method and path. *)
Definition routes : list (string * string) :=
  [("POST", "/register"); ("POST", "/login"); ("GET", "/users");
   ("POST", "/reset-password"); ("POST", "/logout"); ("POST", "/debug/test-hash");
   ("GET", "/")].

(** Events that touch neither the store nor the password primitives. *)
Definition quiet_event (ev : event) : bool :=
  match ev with
  | EvRequestJson | EvConsoleLog _ | EvConsoleError _ => true
  | _ => false
  end.

Definition is_verify_event (ev : event) : bool :=
  match ev with
  | EvPasswordVerify _ _ => true
  | _ => false
  end.

Definition reset_response : response :=
  json_response 200
    (VObj [("success", VBool true); ("message", VStr "Password updated successfully")]).

(** * Properties *)

(** ** Strings *)

Section StringFacts.

Lemma lower_char_white_space (c : ascii) :
  is_ascii_white_space (lower_char c) = is_ascii_white_space c.
Proof. destruct c as [[] [] [] [] [] [] [] []]; reflexivity. Qed.

Lemma lower_char_of_upper (c : ascii) :
  is_upper c = true ->
  lower_char (ascii_of_N (code c + 32)) = lower_char c.
Proof. destruct c as [[] [] [] [] [] [] [] []]; intros H; try discriminate H; reflexivity. Qed.

Lemma same_letter_lower (c d : ascii) :
  same_letter c d = true -> lower_char c = lower_char d.
Proof.
  unfold same_letter. intros H.
  apply orb_true_iff in H as [H | H]; [apply orb_true_iff in H as [H | H] |].
  - apply Ascii.eqb_eq in H. now subst.
  - apply andb_true_iff in H as [Hu H]. apply Ascii.eqb_eq in H. subst d.
    symmetry. now apply lower_char_of_upper.
  - apply andb_true_iff in H as [Hu H]. apply Ascii.eqb_eq in H. subst c.
    now apply lower_char_of_upper.
Qed.

Lemma case_variant_toLowerCase (u s : string) :
  case_variant u s = true -> ascii_toLowerCase u = ascii_toLowerCase s.
Proof.
  revert s. induction u as [| c u IH]; intros [| d s] H; simpl in H;
    try discriminate H; [reflexivity |].
  apply andb_true_iff in H as [Hc Hs].
  unfold ascii_toLowerCase in *. simpl.
  rewrite (same_letter_lower _ _ Hc). f_equal. now apply IH.
Qed.

Lemma toLowerCase_app (a b : string) :
  ascii_toLowerCase (a +:+ b) = ascii_toLowerCase a +:+ ascii_toLowerCase b.
Proof.
  unfold ascii_toLowerCase. induction a as [| c a IH]; simpl; [reflexivity |].
  now rewrite IH.
Qed.

Lemma white_space_only_toLowerCase (s : string) :
  white_space_only (ascii_toLowerCase s) = white_space_only s.
Proof.
  unfold white_space_only, ascii_toLowerCase.
  induction s as [| c s IH]; simpl; [reflexivity |].
  now rewrite lower_char_white_space, IH.
Qed.

Lemma trimStart_padding (l x : string) :
  white_space_only l = true -> ascii_trimStart (l +:+ x) = ascii_trimStart x.
Proof.
  unfold white_space_only. induction l as [| c l IH]; simpl; intros H; [reflexivity |].
  apply andb_true_iff in H as [Hc Hl]. rewrite Hc. now apply IH.
Qed.

Lemma trimEnd_white_space_only (r : string) :
  white_space_only r = true -> ascii_trimEnd r = EmptyString.
Proof.
  unfold white_space_only. induction r as [| c r IH]; simpl; intros H; [reflexivity |].
  apply andb_true_iff in H as [Hc Hr]. now rewrite (IH Hr), Hc.
Qed.

Lemma trimEnd_padding (x r : string) :
  white_space_only r = true -> ascii_trimEnd (x +:+ r) = ascii_trimEnd x.
Proof.
  intros Hr. induction x as [| c x IH]; simpl.
  - now apply trimEnd_white_space_only.
  - now rewrite IH.
Qed.

Lemma trim_padding_end (x r : string) :
  white_space_only r = true -> ascii_trim (x +:+ r) = ascii_trim x.
Proof.
  intros Hr. unfold ascii_trim. induction x as [| c x IH]; simpl.
  - rewrite trimEnd_white_space_only; [reflexivity |].
    clear -Hr. unfold white_space_only in *.
    induction r as [| d r IH]; simpl in *; [reflexivity |].
    apply andb_true_iff in Hr as [Hd Hr]. rewrite Hd. now apply IH.
  - destruct (is_ascii_white_space c); [exact IH |].
    change (String c (x +:+ r)) with (String c x +:+ r).
    now apply trimEnd_padding.
Qed.

Lemma trim_padding (l x r : string) :
  white_space_only l = true -> white_space_only r = true ->
  ascii_trim (l +:+ x +:+ r) = ascii_trim x.
Proof.
  intros Hl Hr. unfold ascii_trim at 1. rewrite (trimStart_padding l (x +:+ r) Hl).
  now apply trim_padding_end.
Qed.

(** On ASCII text normalisation, [email.toLowerCase().trim()], forgets
    case and padding. *)
Lemma normalize_invariant (l r l' r' u s : string) :
  white_space_only l = true -> white_space_only r = true ->
  white_space_only l' = true -> white_space_only r' = true ->
  case_variant u s = true ->
  ascii_trim (ascii_toLowerCase (l +:+ u +:+ r))
  = ascii_trim (ascii_toLowerCase (l' +:+ s +:+ r')).
Proof.
  intros Hl Hr Hl' Hr' Hus.
  rewrite !toLowerCase_app, !trim_padding
    by now rewrite white_space_only_toLowerCase.
  now rewrite (case_variant_toLowerCase u s Hus).
Qed.

Lemma ascii_text_app (a b : string) :
  ascii_text (a +:+ b) = ascii_text a && ascii_text b.
Proof.
  unfold ascii_text. induction a as [| c a IH]; simpl; [reflexivity |].
  now rewrite IH, andb_assoc.
Qed.

Lemma white_space_is_ascii (c : ascii) :
  is_ascii_white_space c = true -> (code c <? 128)%N = true.
Proof. destruct c as [[] [] [] [] [] [] [] []]; intros H; try discriminate H; reflexivity. Qed.

Lemma white_space_only_ascii (l : string) :
  white_space_only l = true -> ascii_text l = true.
Proof.
  unfold white_space_only, ascii_text. induction l as [| c l IH]; simpl; [reflexivity |].
  intros H. apply andb_true_iff in H as [Hc Hl].
  now rewrite (white_space_is_ascii c Hc), (IH Hl).
Qed.

Lemma same_letter_ascii (c d : ascii) :
  same_letter c d = true -> (code c <? 128)%N = true -> (code d <? 128)%N = true.
Proof.
  unfold same_letter. intros H Hc.
  apply orb_true_iff in H as [H | H]; [apply orb_true_iff in H as [H | H] |].
  - apply Ascii.eqb_eq in H. now subst.
  - apply andb_true_iff in H as [Hu H]. apply Ascii.eqb_eq in H. subst d.
    clear Hc. revert Hu.
    destruct c as [[] [] [] [] [] [] [] []]; intros Hu; try discriminate Hu; reflexivity.
  - apply andb_true_iff in H as [Hu _]. revert Hu.
    destruct d as [[] [] [] [] [] [] [] []]; intros Hu; try discriminate Hu; reflexivity.
Qed.

Lemma case_variant_ascii (u s : string) :
  case_variant u s = true -> ascii_text u = true -> ascii_text s = true.
Proof.
  unfold ascii_text. revert s.
  induction u as [| c u IH]; intros [| d s] H Hu; simpl in *;
    try discriminate H; [reflexivity |].
  apply andb_true_iff in H as [Hcd Hus]. apply andb_true_iff in Hu as [Hc Hu].
  now rewrite (same_letter_ascii c d Hcd Hc), (IH s Hus Hu).
Qed.

Lemma lower_char_ascii (c : ascii) :
  (code c <? 128)%N = true -> (code (lower_char c) <? 128)%N = true.
Proof. destruct c as [[] [] [] [] [] [] [] []]; intros H; try discriminate H; reflexivity. Qed.

Lemma ascii_toLowerCase_ascii (s : string) :
  ascii_text s = true -> ascii_text (ascii_toLowerCase s) = true.
Proof.
  unfold ascii_text, ascii_toLowerCase. induction s as [| c s IH]; simpl; [reflexivity |].
  intros H. apply andb_true_iff in H as [Hc Hs].
  now rewrite (lower_char_ascii c Hc), (IH Hs).
Qed.

End StringFacts.

(** ** Occurrences and [replace] *)

Section ReplaceFacts.

Lemma starts_with_app (p t : string) : starts_with p (p +:+ t) = true.
Proof.
  induction p as [| c p IH]; simpl; [reflexivity |].
  now rewrite Ascii.eqb_refl.
Qed.

Lemma drop_chars_app (p t : string) : drop_chars (String.length p) (p +:+ t) = t.
Proof. induction p as [| c p IH]; simpl; [reflexivity | exact IH]. Qed.

Lemma starts_with_split (p s : string) :
  starts_with p s = true -> s = p +:+ drop_chars (String.length p) s.
Proof.
  revert s. induction p as [| c p IH]; intros s H; simpl in *; [reflexivity |].
  destruct s as [| d s]; [discriminate H |].
  apply andb_true_iff in H as [Hc H]. apply Ascii.eqb_eq in Hc. subst d.
  change (String c s = String c (p +:+ drop_chars (String.length p) s)).
  f_equal. now apply IH.
Qed.

Lemma replace_unfold (p rep s : string) :
  replace p rep s =
  if starts_with p s then rep +:+ drop_chars (String.length p) s
  else match s with
       | EmptyString => EmptyString
       | String c s' => String c (replace p rep s')
       end.
Proof. destruct s; reflexivity. Qed.

(** A header that starts with the pattern loses exactly that prefix. *)
Lemma replace_prefix (p rep t : string) : replace p rep (p +:+ t) = rep +:+ t.
Proof.
  rewrite replace_unfold, starts_with_app. now rewrite drop_chars_app.
Qed.

Lemma indexOf_unfold (p s : string) :
  indexOf p s =
  if starts_with p s then Some O
  else match s with
       | EmptyString => None
       | String _ s' => option_map S (indexOf p s')
       end.
Proof. destruct s; reflexivity. Qed.

(** [replace] rewrites the first occurrence and nothing else. *)
Lemma replace_indexOf (p rep s : string) :
  replace p rep s =
  match indexOf p s with
  | Some i => take_chars i s +:+ rep +:+ drop_chars (i + String.length p) s
  | None => s
  end.
Proof.
  induction s as [| c s IH]; rewrite replace_unfold, indexOf_unfold.
  - destruct (starts_with p EmptyString); reflexivity.
  - destruct (starts_with p (String c s)); [reflexivity |].
    rewrite IH. destruct (indexOf p s) as [i |]; reflexivity.
Qed.

Lemma all_chars_app (q : ascii -> bool) (a b : string) :
  all_chars q (a +:+ b) = all_chars q a && all_chars q b.
Proof.
  induction a as [| c a IH]; simpl; [reflexivity |].
  now rewrite IH, andb_assoc.
Qed.

Lemma all_chars_drop (q : ascii -> bool) (n : nat) (s : string) :
  all_chars q s = true -> all_chars q (drop_chars n s) = true.
Proof.
  revert s. induction n as [| n IH]; intros [| c s] H; simpl in *; try assumption.
  apply andb_true_iff in H as [_ H]. now apply IH.
Qed.

(** A text in radix 36 contains no occurrence of ["Bearer "]. *)
Lemma indexOf_Bearer_radix36 (s : string) :
  all_chars radix36_char s = true -> indexOf "Bearer " s = None.
Proof.
  induction s as [| c s IH]; intros H; rewrite indexOf_unfold.
  - reflexivity.
  - destruct (starts_with "Bearer " (String c s)) eqn:Hp.
    + apply starts_with_split in Hp. rewrite Hp in H. discriminate H.
    + simpl in H. apply andb_true_iff in H as [_ H]. now rewrite (IH H).
Qed.

End ReplaceFacts.

(** ** Numbers in radix 36 *)

Section RadixFacts.

Lemma digit_char_radix36 (d : N) :
  (d < 36)%N -> radix36_char (digit_char d) = true.
Proof.
  intros Hd.
  assert (Hall : forallb (fun k => radix36_char (digit_char (N.of_nat k))) (seq 0 36) = true)
    by (vm_compute; reflexivity).
  rewrite forallb_forall in Hall.
  rewrite <- (N2Nat.id d). apply Hall. apply in_seq. lia.
Qed.

Lemma digit_value_char (d : N) : (d < 36)%N -> digit_value (digit_char d) = d.
Proof.
  intros Hd.
  assert (Hall : forallb (fun k => N.eqb (digit_value (digit_char (N.of_nat k)))
                                         (N.of_nat k)) (seq 0 36) = true)
    by (vm_compute; reflexivity).
  rewrite forallb_forall in Hall.
  rewrite <- (N2Nat.id d). apply N.eqb_eq, Hall. apply in_seq. lia.
Qed.

(** The fuel of [N_toString] is enough: the digits written denote [n]. *)
Lemma digits_loop_value (radix : N) (fuel : nat) (n : N) (acc : string) :
  (2 <= radix <= 36)%N -> (n < 2 ^ N.of_nat (S fuel))%N ->
  radix_value radix (digits_loop (S fuel) radix n acc) 0 = radix_value radix acc n.
Proof.
  intros Hr. revert n acc. induction fuel as [| fuel IH]; intros n acc Hn.
  - assert (Hsmall : (n < radix)%N) by (change (2 ^ N.of_nat 1)%N with 2%N in Hn; lia).
    simpl. rewrite (N.div_small n radix Hsmall). simpl.
    rewrite (N.mod_small n radix Hsmall), digit_value_char by lia. reflexivity.
  - change (digits_loop (S (S fuel)) radix n acc)
      with (if (n / radix =? 0)%N
            then String (digit_char (n mod radix)) acc
            else digits_loop (S fuel) radix (n / radix)
                   (String (digit_char (n mod radix)) acc)).
    assert (Hm : (n mod radix < radix)%N) by (apply N.mod_upper_bound; lia).
    assert (Hdiv : (n = radix * (n / radix) + n mod radix)%N)
      by (apply N.div_mod; lia).
    destruct (N.eqb_spec (n / radix) 0) as [Hz | Hz].
    + simpl. rewrite digit_value_char by lia. f_equal. lia.
    + rewrite IH.
      * simpl. rewrite digit_value_char by lia. f_equal. lia.
      * assert (Hhalf : (n / radix <= n / 2)%N)
          by (apply N.div_le_compat_l; lia).
        assert (Hpow : (2 ^ N.of_nat (S (S fuel)) = 2 * 2 ^ N.of_nat (S fuel))%N).
        { rewrite (Nat2N.inj_succ (S fuel)). apply N.pow_succ_r'. }
        assert (Hn2 : (n / 2 < 2 ^ N.of_nat (S fuel))%N)
          by (apply N.Div0.div_lt_upper_bound; lia).
        lia.
Qed.

Lemma N_toString_value (radix n : N) :
  (2 <= radix <= 36)%N -> radix_value radix (N_toString radix n) 0 = n.
Proof.
  intros Hr. unfold N_toString.
  rewrite digits_loop_value; [reflexivity | exact Hr |].
  rewrite Nat2N.inj_succ, N2Nat.id.
  destruct (N.eq_dec n 0) as [-> | Hn]; [reflexivity |].
  apply N.log2_spec. lia.
Qed.

Lemma digits_loop_radix36 (fuel : nat) (n : N) (acc : string) :
  all_chars radix36_char acc = true ->
  all_chars radix36_char (digits_loop fuel 36 n acc) = true.
Proof.
  revert n acc. induction fuel as [| fuel IH]; intros n acc Hacc; simpl; [exact Hacc |].
  assert (Hacc' : all_chars radix36_char (String (digit_char (n mod 36)) acc) = true).
  { simpl. rewrite Hacc, digit_char_radix36; [reflexivity |].
    apply N.mod_upper_bound. discriminate. }
  destruct (n / 36 =? 0)%N; [exact Hacc' | now apply IH].
Qed.

Lemma toString_radix36_chars (n : Z) :
  all_chars radix36_char (toString_radix 36 n) = true.
Proof.
  unfold toString_radix, N_toString.
  destruct (n <? 0); [| now apply digits_loop_radix36].
  cbn [all_chars]. apply andb_true_iff.
  split; [reflexivity | now apply digits_loop_radix36].
Qed.

Lemma digits_loop_nonempty (fuel : nat) (radix n : N) (acc : string) :
  acc <> EmptyString -> digits_loop fuel radix n acc <> EmptyString.
Proof.
  revert n acc. induction fuel as [| fuel IH]; intros n acc Hacc; simpl; [exact Hacc |].
  destruct (n / radix =? 0)%N; [discriminate | apply IH; discriminate].
Qed.

Lemma toString_radix_nonempty (radix : N) (n : Z) :
  toString_radix radix n <> EmptyString.
Proof.
  unfold toString_radix, N_toString.
  destruct (n <? 0); [discriminate |].
  simpl. destruct (Z.abs_N n / radix =? 0)%N; [discriminate |].
  apply digits_loop_nonempty. discriminate.
Qed.

Lemma append_nonempty_r (a b : string) : b <> EmptyString -> a +:+ b <> EmptyString.
Proof. destruct a; simpl; [trivial | discriminate]. Qed.

End RadixFacts.

(** ** The store *)

Section StoreFacts.

Import UserDatabase.

Lemma lookup_Some h db r :
  getUserByEmailHash h db = Some r -> In r (rows db) /\ email_hash r = h.
Proof.
  unfold getUserByEmailHash. intros H. apply find_some in H as [Hin Heq].
  split; [exact Hin | now apply String.eqb_eq].
Qed.

Lemma lookup_None h db r :
  getUserByEmailHash h db = None -> In r (rows db) -> email_hash r <> h.
Proof.
  unfold getUserByEmailHash. intros H Hin.
  apply String.eqb_neq. exact (find_none _ _ H r Hin).
Qed.

Lemma find_app_split {A} (f : A -> bool) (l1 l2 : list A) :
  List.find f (l1 ++ l2)
  = match List.find f l1 with
    | Some x => Some x
    | None => List.find f l2
    end.
Proof.
  induction l1 as [| a l1 IH]; simpl; [reflexivity |].
  destruct (f a); [reflexivity | exact IH].
Qed.

Lemma lookup_app_None h l1 l2 seq1 seq2 :
  getUserByEmailHash h (Table l1 seq1) = None ->
  getUserByEmailHash h (Table (l1 ++ l2) seq2) = getUserByEmailHash h (Table l2 seq2).
Proof.
  unfold getUserByEmailHash. simpl. induction l1 as [| a l1 IH]; simpl; [reflexivity |].
  destruct (String.eqb (email_hash a) h); [discriminate | exact IH].
Qed.

(** X2.  With unique hashes, a record is in the table exactly when the
    lookup by its own hash returns it; and a lookup that returns nothing
    means no record has that hash. *)
Theorem stored_user_is_found db r :
  NoDup (List.map email_hash (rows db)) ->
  (In r (rows db) <-> getUserByEmailHash (email_hash r) db = Some r)
  /\ (forall h, getUserByEmailHash h db = None <->
                 forall r', In r' (rows db) -> email_hash r' <> h).
Proof.
  intros Hnd. split; [split |].
  - unfold getUserByEmailHash. induction (rows db) as [| a l IH]; simpl; [tauto |].
    inversion Hnd as [| x xs Hnotin Hnd']; subst.
    intros [-> | Hin]; [now rewrite String.eqb_refl |].
    destruct (String.eqb_spec (email_hash a) (email_hash r)) as [Heq | _].
    + elim Hnotin. rewrite Heq. apply list_elem_of_In. now apply in_map.
    + now apply IH.
  - intros H. now apply lookup_Some in H.
  - intros h. split.
    + intros H r' Hin. now apply (lookup_None h db).
    + intros H. unfold getUserByEmailHash.
      destruct (List.find _ _) as [r' |] eqn:Hf; [| reflexivity].
      apply find_some in Hf as [Hin Heq]. apply String.eqb_eq in Heq.
      now elim (H r' Hin).
Qed.

(** X3.  Insert, then look up: an insert of a hash that is not in the
    table returns the next rowid, appends one record, makes that record the
    answer for its hash and leaves every other lookup as it was; an insert
    of a hash that is in the table fails, also right after it was
    inserted. *)
Theorem addUser_then_lookup now h ph db :
  (getUserByEmailHash h db = None ->
   exists db',
     addUser now h ph db = Ok (sequence db + 1, db')
     /\ getAllUsers db' = (getAllUsers db ++ [Row (sequence db + 1) h ph now])%list
     /\ sequence db' = sequence db + 1
     /\ getUserByEmailHash h db' = Some (Row (sequence db + 1) h ph now)
     /\ (forall h', h' <> h -> getUserByEmailHash h' db' = getUserByEmailHash h' db)
     /\ (forall now' ph', exists err, addUser now' h ph' db' = Throw err))
  /\ (forall r, getUserByEmailHash h db = Some r ->
                exists err, addUser now h ph db = Throw err).
Proof.
  split.
  - intros Hnone. unfold addUser. rewrite Hnone. eexists. split; [reflexivity |].
    assert (Hnew : getUserByEmailHash h
                     {| rows := rows db ++ [Row (sequence db + 1) h ph now];
                        sequence := sequence db + 1 |}
                   = Some (Row (sequence db + 1) h ph now)).
    { destruct db as [l sq]. rewrite (lookup_app_None h l _ sq _ Hnone).
      unfold getUserByEmailHash. simpl. now rewrite String.eqb_refl. }
    repeat split; try exact Hnew.
    + intros h' Hne. unfold getUserByEmailHash. simpl.
      rewrite find_app_split. destruct (List.find _ (rows db)); [reflexivity |].
      simpl. apply not_eq_sym, String.eqb_neq in Hne. now rewrite Hne.
    + intros now' ph'. rewrite Hnew. eexists. reflexivity.
  - intros r Hr. unfold addUser. rewrite Hr. eexists. reflexivity.
Qed.

Lemma find_map_update h nh l :
  List.find (fun r => String.eqb (email_hash r) h)
    (List.map (fun r => if String.eqb (email_hash r) h
                        then Row (id r) (email_hash r) nh (created_at r) else r) l)
  = option_map (set_password nh)
      (List.find (fun r => String.eqb (email_hash r) h) l).
Proof.
  induction l as [| a l IH]; simpl; [reflexivity |].
  destruct (String.eqb (email_hash a) h) eqn:Ha; simpl; rewrite Ha; [reflexivity | exact IH].
Qed.

(** X4.  Update, then look up: the record of the hash carries the new
    password hash and nothing else of it changed, lookups of other hashes
    are as before, identifiers, hashes, dates, order and sequence are
    kept, and an update for a hash without record changes nothing. *)
Theorem updatePassword_then_lookup h nh db :
  getUserByEmailHash h (updatePassword h nh db)
  = option_map (set_password nh) (getUserByEmailHash h db)
  /\ (forall h', h' <> h ->
        getUserByEmailHash h' (updatePassword h nh db) = getUserByEmailHash h' db)
  /\ List.map row_key (rows (updatePassword h nh db)) = List.map row_key (rows db)
  /\ sequence (updatePassword h nh db) = sequence db
  /\ (getUserByEmailHash h db = None -> updatePassword h nh db = db).
Proof.
  destruct db as [l sq]. unfold getUserByEmailHash, updatePassword. simpl.
  split; [apply find_map_update |]. split; [| split; [| split; [reflexivity |]]].
  - intros h' Hne. induction l as [| a l IH]; simpl; [reflexivity |].
    destruct (String.eqb (email_hash a) h) eqn:Ha; simpl.
    + apply String.eqb_eq in Ha. rewrite Ha.
      apply not_eq_sym, String.eqb_neq in Hne. rewrite Hne. exact IH.
    + destruct (String.eqb (email_hash a) h'); [reflexivity | exact IH].
  - induction l as [| a l IH]; simpl; [reflexivity |].
    rewrite IH. destruct (String.eqb (email_hash a) h); reflexivity.
  - intros Hnone. f_equal. induction l as [| a l IH]; simpl in *; [reflexivity |].
    destruct (String.eqb (email_hash a) h); [discriminate |].
    now rewrite IH.
Qed.

Lemma store_ok_add now h ph db :
  store_ok db -> getUserByEmailHash h db = None ->
  store_ok {| rows := rows db ++ [Row (sequence db + 1) h ph now];
              sequence := sequence db + 1 |}.
Proof.
  intros (Hh & Hi & Hb) Hnone. unfold store_ok. simpl.
  rewrite !List.map_app. simpl. split; [| split].
  - apply NoDup_app. split; [exact Hh |]. split; [| apply NoDup_singleton].
    intros x Hx Hx'. apply list_elem_of_In, in_map_iff in Hx as (r & <- & Hr).
    apply list_elem_of_singleton in Hx'. now apply (lookup_None h db r Hnone Hr).
  - apply NoDup_app. split; [exact Hi |]. split; [| apply NoDup_singleton].
    intros x Hx Hx'. apply list_elem_of_In, in_map_iff in Hx as (r & <- & Hr).
    apply list_elem_of_singleton in Hx'.
    apply list_elem_of_In in Hr.
    pose proof (proj1 (Forall_forall _ _) Hb r Hr) as Hle. simpl in Hle. lia.
  - apply Forall_app. split.
    + apply (Forall_impl _ _ _ Hb). simpl. intros r Hr. lia.
    + constructor; [simpl; lia | constructor].
Qed.

Lemma store_ok_update h nh db : store_ok db -> store_ok (updatePassword h nh db).
Proof.
  intros (Hh & Hi & Hb).
  destruct (updatePassword_then_lookup h nh db) as (_ & _ & Hkeys & Hseq & _).
  assert (Hhs : List.map email_hash (rows (updatePassword h nh db))
                = List.map email_hash (rows db)).
  { transitivity (List.map (fun k => snd (fst k)) (List.map row_key (rows db))).
    - rewrite <- Hkeys, List.map_map. reflexivity.
    - rewrite List.map_map. reflexivity. }
  assert (His : List.map id (rows (updatePassword h nh db)) = List.map id (rows db)).
  { transitivity (List.map (fun k => fst (fst k)) (List.map row_key (rows db))).
    - rewrite <- Hkeys, List.map_map. reflexivity.
    - rewrite List.map_map. reflexivity. }
  unfold store_ok. rewrite Hhs, His, Hseq. split; [exact Hh | split; [exact Hi |]].
  apply Forall_forall. intros r Hr.
  assert (Hid : In (id r) (List.map id (rows db))).
  { rewrite <- His. apply in_map. now apply list_elem_of_In. }
  apply in_map_iff in Hid as (r0 & Heq & Hr0). rewrite <- Heq.
  apply list_elem_of_In in Hr0.
  exact (proj1 (Forall_forall _ _) Hb r0 Hr0).
Qed.

End StoreFacts.

(** ** Hexadecimal encoding of the digest *)

Section HexFacts.

Lemma hex_pair_all (b : N) : (b < 256)%N -> hex_pair_ok b = true.
Proof.
  intros Hb.
  assert (Hall : forallb (fun k => hex_pair_ok (N.of_nat k)) (seq 0 256) = true)
    by (vm_compute; reflexivity).
  rewrite forallb_forall in Hall.
  rewrite <- (N2Nat.id b). apply Hall. apply in_seq. lia.
Qed.

Lemma hex_string_cons (b : N) (bytes : list N) :
  hex_string (b :: bytes) = padStart 2 "0" (N_toString 16 b) +:+ hex_string bytes.
Proof. reflexivity. Qed.

(** X18.  Every byte is written as exactly two lower-case hexadecimal
    digits, so the text has twice as many characters as the digest has
    bytes and reading the digits back gives the digest: the encoding loses
    nothing. *)
Theorem hex_string_round_trip (bytes : list N) :
  all_bytes bytes = true ->
  hex_decode (hex_string bytes) = bytes
  /\ String.length (hex_string bytes) = (2 * List.length bytes)%nat
  /\ all_chars hex_char (hex_string bytes) = true.
Proof.
  induction bytes as [| b bytes IH]; intros Hall; [repeat split |].
  unfold all_bytes in Hall. simpl in Hall. apply andb_true_iff in Hall as [Hb Hrest].
  apply N.ltb_lt in Hb. destruct (IH Hrest) as (Hd & Hl & Hc).
  pose proof (hex_pair_all b Hb) as Hp. unfold hex_pair_ok in Hp.
  rewrite hex_string_cons.
  destruct (padStart 2 "0" (N_toString 16 b)) as [| a [| c [| ? ?]]]; try discriminate Hp.
  apply andb_true_iff in Hp as [Hp Hv]. apply andb_true_iff in Hp as [Ha Hcc].
  apply N.eqb_eq in Hv.
  change (String a (String c EmptyString) +:+ hex_string bytes)
    with (String a (String c (hex_string bytes))).
  split; [| split].
  - simpl. now rewrite Hv, Hd.
  - simpl. rewrite Hl. lia.
  - simpl. now rewrite Ha, Hcc, Hc.
Qed.

End HexFacts.

(** The digest of the executable runtime has 32 bytes. *)

Section DigestFacts.

Import SHA256.

Lemma round_length st kw : List.length (round st kw) = List.length st.
Proof.
  destruct st as [| a [| b [| c [| d [| e [| f [| g [| h [| ? ?]]]]]]]]]; reflexivity.
Qed.

Lemma rounds_length l st : List.length (List.fold_left round l st) = List.length st.
Proof.
  revert st. induction l as [| kw l IH]; intros st; simpl; [reflexivity |].
  now rewrite IH, round_length.
Qed.

Lemma compress_length h block : List.length (compress h block) = List.length h.
Proof.
  unfold compress. rewrite List.length_map, List.length_combine, rounds_length.
  apply Nat.min_id.
Qed.

Lemma compress_all_length blocks h :
  List.length (List.fold_left compress blocks h) = List.length h.
Proof.
  revert h. induction blocks as [| b blocks IH]; intros h; simpl; [reflexivity |].
  now rewrite IH, compress_length.
Qed.

Lemma be_bytes_shape n x :
  List.length (be_bytes n x) = n /\ all_bytes (be_bytes n x) = true.
Proof.
  induction n as [| n [IHl IHb]]; [split; reflexivity |]. simpl. split.
  - now rewrite IHl.
  - unfold all_bytes in *. simpl. rewrite IHb, andb_true_r.
    apply N.ltb_lt, N.mod_upper_bound. discriminate.
Qed.

Lemma concat_be_bytes_shape (words : list N) :
  List.length (List.concat (List.map (be_bytes 4) words)) = (4 * List.length words)%nat
  /\ all_bytes (List.concat (List.map (be_bytes 4) words)) = true.
Proof.
  induction words as [| x words [IHl IHb]]; [split; reflexivity |].
  cbn [List.map List.concat]. destruct (be_bytes_shape 4 x) as [Hl Hb]. split.
  - rewrite List.length_app, Hl, IHl. simpl. lia.
  - unfold all_bytes in *. now rewrite List.forallb_app, Hb, IHb.
Qed.

Lemma digest_shape (msg : list N) :
  List.length (digest msg) = 32%nat /\ all_bytes (digest msg) = true.
Proof.
  unfold digest. cbv zeta.
  match goal with
  | |- context [List.concat (List.map (be_bytes 4) ?words)] =>
      destruct (concat_be_bytes_shape words) as [Hl Hb]
  end.
  split; [| exact Hb]. rewrite Hl, compress_all_length. reflexivity.
Qed.

End DigestFacts.

(** ** Running the handlers *)

(** [enter Ht] selects the route named by [Ht : targets req verb path];
    [tidy] puts states and traces in normal form. *)
Ltac enter Ht :=
  let Hm := fresh "Hm" in
  let Hp := fresh "Hp" in
  destruct Ht as [Hm Hp]; unfold fetch, route; rewrite Hp, Hm; simpl.

Ltac tidy :=
  unfold traced, log_line, session_response, logout_response, unauthorized_response;
  simpl; rewrite <- ?app_assoc; simpl; try reflexivity.

Section ServerFacts.

Context {R : Runtime}.

#[local] Arguments UserDatabase.getUserByEmailHash : simpl never.
#[local] Arguments UserDatabase.addUser : simpl never.
#[local] Arguments UserDatabase.updatePassword : simpl never.

Lemma eqb_empty_false (s : string) : s <> "" -> String.eqb s "" = false.
Proof. intros H. now apply String.eqb_neq. Qed.

Lemma session_ok_run (tok : option string) (w : world) :
  session_ok tok w = (Ok (token_accepted tok w), w).
Proof.
  destruct tok as [t |]; simpl; [| reflexivity].
  destruct (String.eqb t ""); reflexivity.
Qed.

Lemma login_run e req w s pw :
  targets req "POST" "/login" -> carries_credentials req s pw ->
  let h := createEmailHash (env_EMAIL_SALT e) s in
  let start := [EvRequestJson; log_line "Login attempt for user: " s "";
                EvGetUserByEmailHash h] in
  fetch e req w =
  match UserDatabase.getUserByEmailHash h (userDb w) with
  | None =>
      (error_response 401 "Invalid credentials",
       traced (start ++ [log_line "Login failed - user not found: " s ""]) w)
  | Some u =>
      let verify := EvPasswordVerify pw (UserDatabase.password_hash u) in
      match Bun_password_verify pw (UserDatabase.password_hash u) with
      | Ok false =>
          (error_response 401 "Invalid credentials",
           traced (start ++ [verify; log_line "Login failed - incorrect password: " s ""]) w)
      | Ok true =>
          (session_response "Login successful" (createSessionToken e),
           World (userDb w) ({[createSessionToken e]} ∪ activeSessions w)
                 (trace w ++ start
                  ++ [verify; log_line "Login successful for user: " s ""]))
      | Throw err =>
          (internal_server_error, traced (start ++ [verify; EvConsoleError err]) w)
      end
  end.
Proof.
  intros Ht (He & Hs & Hpw & Htr) h start. subst h start. enter Ht.
  unfold handle_login, parseRequestBody, mbind, M_bind. simpl.
  fold (parsed_body req). rewrite He, Hpw, Htr. simpl.
  rewrite (eqb_empty_false s Hs). simpl.
  destruct (UserDatabase.getUserByEmailHash _ _) as [u |]; simpl; [| tidy].
  destruct (Bun_password_verify pw _) as [[] | err]; simpl; tidy.
Qed.

Lemma register_run e req w s pw :
  targets req "POST" "/register" -> carries_credentials req s pw ->
  let h := createEmailHash (env_EMAIL_SALT e) s in
  let start := [EvRequestJson; log_line "Registration request received for: " s "";
                EvPasswordHash pw] in
  fetch e req w =
  match Bun_password_hash pw (password_entropy e) with
  | Throw err => (internal_server_error, traced (start ++ [EvConsoleError err]) w)
  | Ok ph =>
      match UserDatabase.getUserByEmailHash h (userDb w) with
      | Some _ =>
          (error_response 400 "User already exists",
           traced (start ++ [EvGetUserByEmailHash h;
                             log_line "Registration denied - email already registered: "
                                      s ""]) w)
      | None =>
          let rowid := UserDatabase.sequence (userDb w) + 1 in
          (session_response "User registered successfully" (createSessionToken e),
           World (UserDatabase.Table
                    (UserDatabase.rows (userDb w)
                     ++ [UserDatabase.Row rowid h ph (CURRENT_TIMESTAMP e)])
                    rowid)
                 ({[createSessionToken e]} ∪ activeSessions w)
                 (trace w ++ start
                  ++ [EvGetUserByEmailHash h; EvAddUser h ph;
                      log_line "User registration successful: " s
                        (" (ID: " +:+ toString_radix 10 rowid +:+ ")")]))
      end
  end.
Proof.
  intros Ht (He & Hs & Hpw & Htr) h start. subst h start. enter Ht.
  unfold handle_register, parseRequestBody, mbind, M_bind. simpl.
  fold (parsed_body req). rewrite He, Hpw, Htr. simpl.
  rewrite (eqb_empty_false s Hs). simpl.
  destruct (Bun_password_hash pw _) as [ph | err]; simpl; [| tidy].
  destruct (UserDatabase.getUserByEmailHash _ _) as [u |] eqn:Hu; simpl; [tidy |].
  unfold db_addUser, UserDatabase.addUser, step, mbind, M_bind. simpl.
  rewrite Hu. simpl. tidy.
Qed.

Lemma users_run e req w :
  targets req "GET" "/users" ->
  fetch e req w =
  if token_accepted (bearer_token req) w
  then
    let allUsers := UserDatabase.getAllUsers (userDb w) in
    (json_response 200
       (VObj [("success", VBool true);
              ("message",
               VStr "All users retrieved (showing hashed data for security proof)");
              ("users", VArr (List.map UserDatabase.row_to_value allUsers));
              ("total_users", VNum (Z.of_nat (List.length allUsers)));
              ("security_note",
               VStr "Emails: SHA-256 + deterministic salt, Passwords: Argon2id + random salt")]),
     traced [EvGetAllUsers;
             EvConsoleLog ("User list requested - Total users: "
                           +:+ toString_radix 10 (Z.of_nat (List.length allUsers)))] w)
  else (unauthorized_response, w).
Proof.
  intros Ht. enter Ht.
  unfold handle_users, mbind, M_bind. rewrite session_ok_run.
  destruct (token_accepted _ _); simpl; tidy.
Qed.

Lemma logout_run e req w :
  targets req "POST" "/logout" ->
  fetch e req w =
  if token_accepted (bearer_token req) w
  then
    (logout_response,
     World (userDb w) (activeSessions w ∖ {[default "" (bearer_token req)]})
           (trace w ++ [EvConsoleLog "User logout completed successfully"]))
  else (error_response 400 "No active session found", w).
Proof.
  intros Ht. enter Ht.
  unfold handle_logout, mbind, M_bind. rewrite session_ok_run.
  destruct (token_accepted _ _); simpl; tidy.
Qed.

Lemma reset_unauthorized_run e req w :
  targets req "POST" "/reset-password" ->
  token_accepted (bearer_token req) w = false ->
  fetch e req w = (unauthorized_response, w).
Proof.
  intros Ht Hs. enter Ht.
  unfold handle_reset_password, mbind, M_bind. rewrite session_ok_run, Hs.
  reflexivity.
Qed.

Lemma reset_run e req w s cur new :
  targets req "POST" "/reset-password" ->
  token_accepted (bearer_token req) w = true ->
  carries_reset req s cur new ->
  let h := createEmailHash (env_EMAIL_SALT e) s in
  let start := [EvRequestJson; log_line "Password reset request for user: " s "";
                EvGetUserByEmailHash h] in
  fetch e req w =
  match UserDatabase.getUserByEmailHash h (userDb w) with
  | None =>
      (error_response 404 "User not found",
       traced (start ++ [log_line "Password reset failed - user not found: " s ""]) w)
  | Some u =>
      let verify := EvPasswordVerify cur (UserDatabase.password_hash u) in
      match Bun_password_verify cur (UserDatabase.password_hash u) with
      | Throw err =>
          (internal_server_error, traced (start ++ [verify; EvConsoleError err]) w)
      | Ok false =>
          (error_response 401 "Current password is incorrect",
           traced (start
                   ++ [verify;
                       log_line "Password reset failed - incorrect current password: "
                                s ""]) w)
      | Ok true =>
          match Bun_password_hash new (password_entropy e) with
          | Throw err =>
              (internal_server_error,
               traced (start ++ [verify; EvPasswordHash new; EvConsoleError err]) w)
          | Ok newPasswordHash =>
              (json_response 200
                 (VObj [("success", VBool true);
                        ("message", VStr "Password updated successfully")]),
               World (UserDatabase.updatePassword h newPasswordHash (userDb w))
                     (activeSessions w)
                     (trace w ++ start
                      ++ [verify; EvPasswordHash new;
                          EvUpdatePassword h newPasswordHash;
                          log_line "Password reset completed for user: " s ""]))
          end
      end
  end.
Proof.
  intros Ht Hacc (He & Hs & Hcur & Htc & Hnew & Htn) h start. subst h start. enter Ht.
  unfold handle_reset_password, mbind at 1, M_bind at 1. rewrite session_ok_run, Hacc.
  unfold parseRequestBody, mbind, M_bind. simpl.
  fold (parsed_body req). rewrite He, Hcur, Hnew, Htc, Htn. simpl.
  rewrite (eqb_empty_false s Hs). simpl.
  destruct (UserDatabase.getUserByEmailHash _ _) as [u |]; simpl; [| tidy].
  destruct (Bun_password_verify cur _) as [[] | err]; simpl; [| tidy | tidy].
  destruct (Bun_password_hash new _) as [nh | err]; simpl; tidy.
Qed.

(** Under [ascii_laws] the normal form of ASCII text is the one written
    out for ASCII. *)
Lemma ascii_normal_form (x : string) :
  ascii_laws -> ascii_text x = true ->
  String_trim (String_toLowerCase x) = ascii_trim (ascii_toLowerCase x).
Proof.
  intros Hlaws Hx. rewrite (proj1 (Hlaws x Hx)).
  exact (proj2 (Hlaws _ (ascii_toLowerCase_ascii x Hx))).
Qed.

Lemma debug_run e req w s :
  targets req "POST" "/debug/test-hash" ->
  (parsed_body req)?."email" = VStr s -> s <> "" ->
  let h := createEmailHash (env_EMAIL_SALT e) s in
  let h3 := createEmailHash (env_EMAIL_SALT e) (String_toUpperCase s) in
  fetch e req w =
  (json_response 200
     (VObj [("email", VStr s);
            ("hash1", VStr h); ("hash2", VStr h); ("hash3", VStr h3);
            ("same_email_same_hash", VBool true);
            ("case_insensitive", VBool (String.eqb h h3));
            ("deterministic", VBool (String.eqb h h3));
            ("message",
             VStr (if String.eqb h h3
                   then "Email hashing is working correctly"
                   else "Email hashing has issues"))]),
   traced [EvRequestJson] w).
Proof.
  intros Ht He Hs h h3. subst h h3. enter Ht.
  unfold handle_debug_test_hash, parseRequestBody, mbind, M_bind. simpl.
  fold (parsed_body req). rewrite He. simpl.
  rewrite (eqb_empty_false s Hs). simpl.
  rewrite String.eqb_refl. tidy.
Qed.

(** *** Requests of any shape

    A body without the required fields is answered with status 400; an
    [email] that is not a string makes the handler throw before it reaches
    the store.  Neither changes more than the trace. *)

Ltac settle :=
  solve [right; eexists _, _; split; [tidy | auto]].

Ltac traced_only :=
  solve [eexists _, _; tidy].

Ltac by_email_shape He :=
  match goal with
  | |- context [(parsed_body ?req)?."email"] =>
      destruct ((parsed_body req)?."email") as [| | [] | n | s | items | props] eqn:He
  end.

Lemma register_cases e req w :
  targets req "POST" "/register" ->
  (exists s pw, carries_credentials req s pw)
  \/ (exists r evs, fetch e req w = (r, traced evs w)
      /\ (r = error_response 400 "Email and password required"
          \/ r = internal_server_error)).
Proof.
  intros Ht. enter Ht.
  unfold handle_register, parseRequestBody, mbind, M_bind. simpl.
  fold (parsed_body req).
  destruct (truthy (parsed_body req)?."password") eqn:Hpw;
    [| rewrite orb_true_r; settle].
  by_email_shape He; simpl; try settle.
  - destruct (n =? 0); simpl; settle.
  - destruct (String.eqb s "") eqn:Hs; simpl; [settle |].
    left. exists s, ((parsed_body req)?."password").
    repeat split; auto. now apply String.eqb_neq.
  - unfold console_log_with, console_log, lift, emit, mbind, M_bind.
    destruct (ToString (VArr items)); simpl; settle.
  - unfold console_log_with, console_log, lift, emit, mbind, M_bind.
    destruct (ToString (VObj props)); simpl; settle.
Qed.

Lemma login_cases e req w :
  targets req "POST" "/login" ->
  (exists s pw, carries_credentials req s pw)
  \/ (exists r evs, fetch e req w = (r, traced evs w)
      /\ (r = error_response 400 "Email and password required"
          \/ r = internal_server_error)).
Proof.
  intros Ht. enter Ht.
  unfold handle_login, parseRequestBody, mbind, M_bind. simpl.
  fold (parsed_body req).
  destruct (truthy (parsed_body req)?."password") eqn:Hpw;
    [| rewrite orb_true_r; settle].
  by_email_shape He; simpl; try settle.
  - destruct (n =? 0); simpl; settle.
  - destruct (String.eqb s "") eqn:Hs; simpl; [settle |].
    left. exists s, ((parsed_body req)?."password").
    repeat split; auto. now apply String.eqb_neq.
  - unfold console_log_with, console_log, lift, emit, mbind, M_bind.
    destruct (ToString (VArr items)); simpl; settle.
  - unfold console_log_with, console_log, lift, emit, mbind, M_bind.
    destruct (ToString (VObj props)); simpl; settle.
Qed.

Lemma reset_cases e req w :
  targets req "POST" "/reset-password" ->
  token_accepted (bearer_token req) w = true ->
  (exists s cur new, carries_reset req s cur new)
  \/ (exists r evs, fetch e req w = (r, traced (EvRequestJson :: evs) w)
      /\ (r = error_response 400 "Email, current password, and new password required"
          \/ r = internal_server_error)).
Proof.
  intros Ht Hacc. enter Ht.
  unfold handle_reset_password, mbind at 1, M_bind at 1. rewrite session_ok_run, Hacc.
  unfold parseRequestBody, mbind, M_bind. simpl.
  fold (parsed_body req).
  destruct (truthy (parsed_body req)?."currentPassword") eqn:Hcur;
    [| rewrite orb_true_r; settle].
  destruct (truthy (parsed_body req)?."newPassword") eqn:Hnew;
    [| rewrite orb_true_r; settle].
  by_email_shape He; simpl; try settle.
  - destruct (n =? 0); simpl; settle.
  - destruct (String.eqb s "") eqn:Hs; simpl; [settle |].
    left. exists s, ((parsed_body req)?."currentPassword"),
      ((parsed_body req)?."newPassword").
    repeat split; auto. now apply String.eqb_neq.
  - unfold console_log_with, console_log, lift, emit, mbind, M_bind.
    destruct (ToString (VArr items)); simpl; settle.
  - unfold console_log_with, console_log, lift, emit, mbind, M_bind.
    destruct (ToString (VObj props)); simpl; settle.
Qed.

Lemma debug_cases e req w :
  targets req "POST" "/debug/test-hash" ->
  exists r evs, fetch e req w = (r, traced evs w).
Proof.
  intros Ht. pose proof Ht as Ht'. enter Ht.
  unfold handle_debug_test_hash, parseRequestBody, mbind, M_bind. simpl.
  fold (parsed_body req).
  by_email_shape He; simpl; try traced_only.
  - destruct (n =? 0); simpl; traced_only.
  - destruct (String.eqb s "") eqn:Hs; simpl; traced_only.
Qed.

(** *** Dispatch *)

Lemma route_cases (req : request) :
  targets req "POST" "/register" \/ targets req "POST" "/login"
  \/ targets req "GET" "/users" \/ targets req "POST" "/reset-password"
  \/ targets req "POST" "/logout" \/ targets req "POST" "/debug/test-hash"
  \/ (forall e w, snd (fetch e req w) = w).
Proof.
  unfold targets.
  pose (on := fun path verb : string =>
                String.eqb (pathname req) path && String.eqb (method req) verb).
  assert (Hon : forall path verb,
             on path verb = true -> method req = verb /\ pathname req = path).
  { intros path verb H. apply andb_true_iff in H as [Hp Hm].
    apply String.eqb_eq in Hp, Hm. now split. }
  destruct (on "/register" "POST") eqn:H1; [apply Hon in H1; tauto |].
  destruct (on "/login" "POST") eqn:H2; [apply Hon in H2; tauto |].
  destruct (on "/users" "GET") eqn:H3; [apply Hon in H3; tauto |].
  destruct (on "/reset-password" "POST") eqn:H4; [apply Hon in H4; tauto |].
  destruct (on "/logout" "POST") eqn:H5; [apply Hon in H5; tauto |].
  destruct (on "/debug/test-hash" "POST") eqn:H6; [apply Hon in H6; tauto |].
  repeat right. intros e w. subst on. cbv beta in *.
  unfold fetch, route. cbv zeta beta.
  rewrite H1, H2, H3, H4, H5, H6.
  destruct (String.eqb (method req) "OPTIONS"); [reflexivity |].
  destruct (String.eqb (pathname req) "/" && String.eqb (method req) "GET");
    reflexivity.
Qed.

(** A request adds at most the token it issues to the session set. *)
Lemma fetch_sessions e req w :
  activeSessions (snd (fetch e req w)) ⊆ {[createSessionToken e]} ∪ activeSessions w.
Proof.
  destruct (route_cases req) as [H | [H | [H | [H | [H | [H | H]]]]]].
  - destruct (register_cases e req w H) as [(s & pw & Hc) | (r & evs & Hf & _)].
    + rewrite (register_run e req w s pw H Hc).
      destruct (Bun_password_hash _ _); [| simpl; set_solver].
      destruct (UserDatabase.getUserByEmailHash _ _); simpl; set_solver.
    + rewrite Hf. simpl. set_solver.
  - destruct (login_cases e req w H) as [(s & pw & Hc) | (r & evs & Hf & _)].
    + rewrite (login_run e req w s pw H Hc).
      destruct (UserDatabase.getUserByEmailHash _ _); [| simpl; set_solver].
      destruct (Bun_password_verify _ _) as [[] |]; simpl; set_solver.
    + rewrite Hf. simpl. set_solver.
  - rewrite (users_run e req w H).
    destruct (token_accepted _ _); simpl; set_solver.
  - destruct (token_accepted (bearer_token req) w) eqn:Hacc.
    + destruct (reset_cases e req w H Hacc)
        as [(s & cur & new & Hc) | (r & evs & Hf & _)].
      * rewrite (reset_run e req w s cur new H Hacc Hc).
        destruct (UserDatabase.getUserByEmailHash _ _); [| simpl; set_solver].
        destruct (Bun_password_verify _ _) as [[] |]; simpl; try set_solver.
        destruct (Bun_password_hash _ _); simpl; set_solver.
      * rewrite Hf. simpl. set_solver.
    + rewrite (reset_unauthorized_run e req w H Hacc). simpl. set_solver.
  - rewrite (logout_run e req w H).
    destruct (token_accepted _ _); simpl; [| set_solver].
    intros x Hx. apply elem_of_difference in Hx as [Hx _].
    now apply elem_of_union_r.
  - destruct (debug_cases e req w H) as (r & evs & Hf).
    rewrite Hf. simpl. set_solver.
  - rewrite H. set_solver.
Qed.

(** *** Session tokens *)

Lemma createSessionToken_nonempty e : createSessionToken e <> "".
Proof.
  unfold createSessionToken. apply append_nonempty_r, toString_radix_nonempty.
Qed.

Lemma createSessionToken_chars e :
  env_ok e = true -> all_chars radix36_char (createSessionToken e) = true.
Proof.
  intros He. unfold createSessionToken, substring_from.
  rewrite all_chars_app, toString_radix36_chars, andb_true_r.
  now apply all_chars_drop.
Qed.

(** Every token of a reachable state is a non-empty text in radix 36. *)
Lemma reachable_tokens w :
  reachable w ->
  forall t, t ∈ activeSessions w -> t <> "" /\ all_chars radix36_char t = true.
Proof.
  induction 1 as [db | e req w Hw IH He]; intros t Ht.
  - simpl in Ht. set_solver.
  - apply fetch_sessions in Ht. apply elem_of_union in Ht as [Ht | Ht].
    + apply elem_of_singleton in Ht. subst t. split.
      * apply createSessionToken_nonempty.
      * now apply createSessionToken_chars.
    + now apply IH.
Qed.

Lemma bearer_token_prefixed req t :
  authorization req = Some ("Bearer " +:+ t) -> bearer_token req = Some t.
Proof.
  intros H. unfold bearer_token. rewrite H.
  now rewrite (replace_prefix "Bearer " "" t).
Qed.

Lemma bearer_token_bare req t :
  authorization req = Some t -> indexOf "Bearer " t = None ->
  bearer_token req = Some t.
Proof.
  intros H Hi. unfold bearer_token. rewrite H.
  now rewrite replace_indexOf, Hi.
Qed.

Lemma token_accepted_iff t w :
  token_accepted (Some t) w = true <-> t <> "" /\ t ∈ activeSessions w.
Proof.
  unfold token_accepted. rewrite andb_true_iff, negb_true_iff, bool_decide_eq_true.
  now rewrite String.eqb_neq.
Qed.

Lemma token_rejected_iff tok w :
  token_accepted tok w = false <->
  tok = None \/ tok = Some "" \/ exists t, tok = Some t /\ t ∉ activeSessions w.
Proof.
  destruct tok as [t |]; simpl; [| intuition].
  rewrite andb_false_iff, negb_false_iff, bool_decide_eq_false, String.eqb_eq.
  split.
  - intros [-> | Hn]; [now right; left | right; right; now exists t].
  - intros [H | [H | (t' & H & Hn)]]; try discriminate.
    + left. congruence.
    + right. congruence.
Qed.

(** Status 200 on [/register] or [/login] means a token was issued. *)
Lemma register_success e req w :
  targets req "POST" "/register" -> status (fst (fetch e req w)) = 200 ->
  fst (fetch e req w)
  = session_response "User registered successfully" (createSessionToken e)
  /\ activeSessions (snd (fetch e req w)) = {[createSessionToken e]} ∪ activeSessions w.
Proof.
  intros H.
  destruct (register_cases e req w H) as [(s & pw & Hc) | (r & evs & Hf & Hr)].
  - rewrite (register_run e req w s pw H Hc).
    destruct (Bun_password_hash _ _); [| discriminate].
    destruct (UserDatabase.getUserByEmailHash _ _); [discriminate |].
    simpl. auto.
  - rewrite Hf. simpl. destruct Hr as [-> | ->]; discriminate.
Qed.

Lemma login_success e req w :
  targets req "POST" "/login" -> status (fst (fetch e req w)) = 200 ->
  fst (fetch e req w) = session_response "Login successful" (createSessionToken e)
  /\ activeSessions (snd (fetch e req w)) = {[createSessionToken e]} ∪ activeSessions w.
Proof.
  intros H.
  destruct (login_cases e req w H) as [(s & pw & Hc) | (r & evs & Hf & Hr)].
  - rewrite (login_run e req w s pw H Hc).
    destruct (UserDatabase.getUserByEmailHash _ _); [| discriminate].
    destruct (Bun_password_verify _ _) as [[] |]; try discriminate.
    simpl. auto.
  - rewrite Hf. simpl. destruct Hr as [-> | ->]; discriminate.
Qed.

Lemma find_app_None {A} (f : A -> bool) (l1 l2 : list A) :
  List.find f l1 = None -> List.find f (l1 ++ l2) = List.find f l2.
Proof.
  induction l1 as [| a l1 IH]; simpl; [reflexivity |].
  destruct (f a); [discriminate | exact IH].
Qed.

(** ** Registration *)

(** C1 (as amended).  Registering an identifier whose hash already has a
    record answers 400 "User already exists", inserts nothing and issues
    no token; this needs the hashing of the submitted password to succeed,
    because the handler hashes the password before it looks the identifier
    up: the trace shows [EvPasswordHash] ahead of [EvGetUserByEmailHash].
    When the identifier is new the first registration succeeds, and every
    later registration of an identifier with the same hash is refused in
    that way. *)
Theorem register_existing_identifier e req w s pw ph :
  targets req "POST" "/register" -> carries_credentials req s pw ->
  Bun_password_hash pw (password_entropy e) = Ok ph ->
  let h := createEmailHash (env_EMAIL_SALT e) s in
  let refused (s' : string) (pw' : value) (w' : world) :=
    (error_response 400 "User already exists",
     traced [EvRequestJson;
             log_line "Registration request received for: " s' "";
             EvPasswordHash pw';
             EvGetUserByEmailHash h;
             log_line "Registration denied - email already registered: " s' ""] w') in
  (forall u, UserDatabase.getUserByEmailHash h (userDb w) = Some u ->
             fetch e req w = refused s pw w)
  /\ (UserDatabase.getUserByEmailHash h (userDb w) = None ->
      fst (fetch e req w)
      = session_response "User registered successfully" (createSessionToken e)
      /\ forall e' req' s' pw' ph',
           targets req' "POST" "/register" -> carries_credentials req' s' pw' ->
           createEmailHash (env_EMAIL_SALT e') s' = h ->
           Bun_password_hash pw' (password_entropy e') = Ok ph' ->
           fetch e' req' (snd (fetch e req w)) = refused s' pw' (snd (fetch e req w))).
Proof.
  intros Ht Hc Hh h refused. subst refused. split.
  - intros u Hu. rewrite (register_run e req w s pw Ht Hc), Hh. fold h. now rewrite Hu.
  - intros Hu. rewrite (register_run e req w s pw Ht Hc), Hh. fold h. rewrite Hu.
    split; [reflexivity |].
    intros e' req' s' pw' ph' Ht' Hc' Hs' Hh'.
    rewrite (register_run e' req' _ s' pw' Ht' Hc'), Hh', Hs'.
    unfold UserDatabase.getUserByEmailHash in *. simpl.
    rewrite (find_app_None _ _ _ Hu). simpl. now rewrite String.eqb_refl.
Qed.

(** ** Login *)

(** C2.  An unknown identifier and a known identifier with a wrong secret
    are answered by the same response, 401 "Invalid credentials". *)
Theorem login_failures_indistinguishable e w req1 req2 s1 s2 pw1 pw2 u :
  targets req1 "POST" "/login" -> carries_credentials req1 s1 pw1 ->
  targets req2 "POST" "/login" -> carries_credentials req2 s2 pw2 ->
  UserDatabase.getUserByEmailHash (createEmailHash (env_EMAIL_SALT e) s1) (userDb w) = None ->
  UserDatabase.getUserByEmailHash (createEmailHash (env_EMAIL_SALT e) s2) (userDb w) = Some u ->
  Bun_password_verify pw2 (UserDatabase.password_hash u) = Ok false ->
  fst (fetch e req1 w) = fst (fetch e req2 w)
  /\ fst (fetch e req1 w) = error_response 401 "Invalid credentials".
Proof.
  intros Ht1 Hc1 Ht2 Hc2 Hu1 Hu2 Hv.
  rewrite (login_run e req1 w s1 pw1 Ht1 Hc1), (login_run e req2 w s2 pw2 Ht2 Hc2).
  rewrite Hu1, Hu2, Hv. split; reflexivity.
Qed.

(** ** Identifier hashing *)


(** ** Sessions *)

(** C4.  The token issued by a successful [/register] or [/login] is
    accepted at once; a logout with it succeeds and removes it, after
    which it is no longer accepted; a second logout with it, like a logout
    without header or with a token that is not active, is answered with
    400 "No active session found" and not with 401. *)
Theorem session_token_lifecycle e req w :
  targets req "POST" "/register" \/ targets req "POST" "/login" ->
  status (fst (fetch e req w)) = 200 ->
  let t := createSessionToken e in
  let w1 := snd (fetch e req w) in
  let presents (r : request) := authorization r = Some ("Bearer " +:+ t) in
  (exists msg, fst (fetch e req w) = session_response msg t)
  /\ token_accepted (Some t) w1 = true
  /\ (forall e1 r1, targets r1 "GET" "/users" -> presents r1 ->
                    status (fst (fetch e1 r1 w1)) = 200)
  /\ (forall e1 r1, targets r1 "POST" "/logout" -> presents r1 ->
        let w2 := snd (fetch e1 r1 w1) in
        fst (fetch e1 r1 w1) = logout_response
        /\ token_accepted (Some t) w2 = false
        /\ (forall e2 r2, targets r2 "GET" "/users" -> presents r2 ->
                          fst (fetch e2 r2 w2) = unauthorized_response)
        /\ (forall e2 r2, targets r2 "POST" "/logout" -> presents r2 ->
                          fetch e2 r2 w2
                          = (error_response 400 "No active session found", w2)))
  /\ (forall e1 r1 w', targets r1 "POST" "/logout" ->
        authorization r1 = None
        \/ (exists t', bearer_token r1 = Some t' /\ t' ∉ activeSessions w') ->
        fetch e1 r1 w' = (error_response 400 "No active session found", w')).
Proof.
  intros Hroute H200 t w1 presents.
  assert (Hissued : (exists msg, fst (fetch e req w) = session_response msg t)
                    /\ activeSessions w1 = {[t]} ∪ activeSessions w).
  { destruct Hroute as [Ht | Ht].
    - destruct (register_success e req w Ht H200) as [Hr Hs]. split; eauto.
    - destruct (login_success e req w Ht H200) as [Hr Hs]. split; eauto. }
  destruct Hissued as [Hresp Hsess].
  assert (Hacc : token_accepted (Some t) w1 = true).
  { apply token_accepted_iff. split; [apply createSessionToken_nonempty |].
    rewrite Hsess. apply elem_of_union_l. now apply elem_of_singleton. }
  split; [exact Hresp |]. split; [exact Hacc |]. split; [| split].
  - intros e1 r1 Ht1 Hp1.
    rewrite (users_run e1 r1 w1 Ht1), (bearer_token_prefixed r1 t Hp1), Hacc.
    reflexivity.
  - intros e1 r1 Ht1 Hp1 w2.
    assert (Hout : fetch e1 r1 w1
                   = (logout_response,
                      World (userDb w1) (activeSessions w1 ∖ {[t]})
                            (trace w1 ++ [EvConsoleLog "User logout completed successfully"]))).
    { rewrite (logout_run e1 r1 w1 Ht1), (bearer_token_prefixed r1 t Hp1), Hacc.
      reflexivity. }
    assert (Hrej : token_accepted (Some t) w2 = false).
    { subst w2. rewrite Hout. apply token_rejected_iff. right. right.
      exists t. split; [reflexivity |]. simpl.
      intros [_ Hn]%elem_of_difference. apply Hn. now apply elem_of_singleton. }
    split; [now rewrite Hout |]. split; [exact Hrej |]. split.
    + intros e2 r2 Ht2 Hp2.
      rewrite (users_run e2 r2 w2 Ht2), (bearer_token_prefixed r2 t Hp2), Hrej.
      reflexivity.
    + intros e2 r2 Ht2 Hp2.
      rewrite (logout_run e2 r2 w2 Ht2), (bearer_token_prefixed r2 t Hp2), Hrej.
      reflexivity.
  - intros e1 r1 w' Ht1 Hno.
    rewrite (logout_run e1 r1 w' Ht1).
    replace (token_accepted (bearer_token r1) w') with false; [reflexivity |].
    symmetry. apply token_rejected_iff.
    destruct Hno as [Hnone | (t' & Hb & Hn)].
    + left. unfold bearer_token. now rewrite Hnone.
    + right. right. now exists t'.
Qed.

(** ** Password reset *)

(** The store changes under a reset request only on the path that follows
    a successful verification of the current secret. *)
Lemma reset_changes_store_after_verify e0 r0 w0 :
  targets r0 "POST" "/reset-password" ->
  userDb (snd (fetch e0 r0 w0)) <> userDb w0 ->
  exists s0 u0,
    (parsed_body r0)?."email" = VStr s0
    /\ UserDatabase.getUserByEmailHash
         (createEmailHash (env_EMAIL_SALT e0) s0) (userDb w0) = Some u0
    /\ Bun_password_verify (parsed_body r0)?."currentPassword"
                           (UserDatabase.password_hash u0) = Ok true.
Proof.
  intros Ht0 Hchg.
  destruct (token_accepted (bearer_token r0) w0) eqn:Hacc0.
  - destruct (reset_cases e0 r0 w0 Ht0 Hacc0)
      as [(s0 & cur0 & new0 & Hc0) | (r & evs & Hf & _)].
    + rewrite (reset_run e0 r0 w0 s0 cur0 new0 Ht0 Hacc0 Hc0) in Hchg.
      destruct Hc0 as (He0 & _ & Hcur0 & _).
      destruct (UserDatabase.getUserByEmailHash _ _) as [u0 |] eqn:Hu0;
        [| now elim Hchg].
      destruct (Bun_password_verify cur0 _) as [[] | err] eqn:Hv0;
        try (now elim Hchg).
      exists s0, u0. rewrite Hcur0. auto.
    + rewrite Hf in Hchg. now elim Hchg.
  - rewrite (reset_unauthorized_run e0 r0 w0 Ht0 Hacc0) in Hchg. now elim Hchg.
Qed.

(** C5.  A reset with the right identifier and a wrong current secret is
    answered with 401 "Current password is incorrect" and leaves store
    and sessions as they were, so a login with the old secret still
    succeeds; and whenever a reset request changes the store, the
    verification of the current secret against the stored hash had
    returned true. *)
Theorem reset_requires_current_secret e req w s cur new u :
  targets req "POST" "/reset-password" ->
  token_accepted (bearer_token req) w = true ->
  carries_reset req s cur new ->
  UserDatabase.getUserByEmailHash (createEmailHash (env_EMAIL_SALT e) s) (userDb w) = Some u ->
  Bun_password_verify cur (UserDatabase.password_hash u) = Ok false ->
  let w' := snd (fetch e req w) in
  fst (fetch e req w) = error_response 401 "Current password is incorrect"
  /\ userDb w' = userDb w /\ activeSessions w' = activeSessions w
  /\ (forall e1 r1 s1 old,
        targets r1 "POST" "/login" -> carries_credentials r1 s1 old ->
        createEmailHash (env_EMAIL_SALT e1) s1 = createEmailHash (env_EMAIL_SALT e) s ->
        Bun_password_verify old (UserDatabase.password_hash u) = Ok true ->
        fst (fetch e1 r1 w') = session_response "Login successful" (createSessionToken e1))
  /\ (forall e0 r0 w0,
        targets r0 "POST" "/reset-password" ->
        userDb (snd (fetch e0 r0 w0)) <> userDb w0 ->
        exists s0 u0,
          (parsed_body r0)?."email" = VStr s0
          /\ UserDatabase.getUserByEmailHash
               (createEmailHash (env_EMAIL_SALT e0) s0) (userDb w0) = Some u0
          /\ Bun_password_verify (parsed_body r0)?."currentPassword"
                                 (UserDatabase.password_hash u0) = Ok true).
Proof.
  intros Ht Hacc Hc Hu Hv w'. subst w'.
  rewrite (reset_run e req w s cur new Ht Hacc Hc), Hu, Hv. simpl.
  repeat split.
  - intros e1 r1 s1 old Ht1 Hc1 Hs1 Hold.
    rewrite (login_run e1 r1 _ s1 old Ht1 Hc1), Hs1. simpl. now rewrite Hu, Hold.
  - apply reset_changes_store_after_verify.
Qed.

(** C6.  A reset request without bearer token, or with one that is empty
    or not in the session set, is answered with 401 "Authentication
    required" and leaves the whole state as it was: the trace gains no
    event, so the body was not parsed and the store was not consulted. *)
Theorem reset_unauthorized_before_body e req w :
  targets req "POST" "/reset-password" ->
  authorization req = None
  \/ bearer_token req = Some ""
  \/ (exists t, bearer_token req = Some t /\ t ∉ activeSessions w) ->
  fetch e req w = (unauthorized_response, w).
Proof.
  intros Ht Hno. apply reset_unauthorized_run; [exact Ht |].
  apply token_rejected_iff. destruct Hno as [Hnone | Hno]; [| now right].
  left. unfold bearer_token. now rewrite Hnone.
Qed.

(** ** Verification at the operation boundary *)

(** C7 (as amended).  [Bun.password.verify] is called without a handler
    of its own.  When it returns false, login answers 401 "Invalid
    credentials" and reset answers 401 "Current password is incorrect";
    when it throws, the exception is caught by [fetch], logged, and
    answered with 500 "Internal server error", and neither the store nor
    the session set changes. *)
Theorem verify_outcome_at_boundary e w s u :
  UserDatabase.getUserByEmailHash (createEmailHash (env_EMAIL_SALT e) s) (userDb w) = Some u ->
  let stored := UserDatabase.password_hash u in
  (forall req pw,
     targets req "POST" "/login" -> carries_credentials req s pw ->
     (Bun_password_verify pw stored = Ok false ->
      fst (fetch e req w) = error_response 401 "Invalid credentials")
     /\ (forall err, Bun_password_verify pw stored = Throw err ->
           fst (fetch e req w) = internal_server_error
           /\ userDb (snd (fetch e req w)) = userDb w
           /\ activeSessions (snd (fetch e req w)) = activeSessions w
           /\ last (trace (snd (fetch e req w))) = Some (EvConsoleError err)))
  /\ (forall req cur new,
        targets req "POST" "/reset-password" ->
        token_accepted (bearer_token req) w = true ->
        carries_reset req s cur new ->
        (Bun_password_verify cur stored = Ok false ->
         fst (fetch e req w) = error_response 401 "Current password is incorrect")
        /\ (forall err, Bun_password_verify cur stored = Throw err ->
              fst (fetch e req w) = internal_server_error
              /\ userDb (snd (fetch e req w)) = userDb w
              /\ activeSessions (snd (fetch e req w)) = activeSessions w
              /\ last (trace (snd (fetch e req w))) = Some (EvConsoleError err))).
Proof.
  intros Hu stored. subst stored. split.
  - intros req pw Ht Hc. rewrite (login_run e req w s pw Ht Hc), Hu. split.
    + intros Hv. now rewrite Hv.
    + intros err Hv. rewrite Hv. simpl. repeat split.
      now rewrite last_app.
  - intros req cur new Ht Hacc Hc.
    rewrite (reset_run e req w s cur new Ht Hacc Hc), Hu. split.
    + intros Hv. now rewrite Hv.
    + intros err Hv. rewrite Hv. simpl. repeat split.
      now rewrite last_app.
Qed.

(** ** The debug route *)

(** C9.  [POST /debug/test-hash] checks no session: for a body whose
    [email] is a non-empty string it answers 200 with the hash of that
    identifier under the salt of the process, whatever the
    [Authorization] header is, and only parses the body.  The answer
    also carries the hash of the upper-cased identifier and says whether
    the two agree. *)
Theorem debug_hash_is_public e req w s :
  targets req "POST" "/debug/test-hash" ->
  (parsed_body req)?."email" = VStr s -> s <> "" ->
  let h := createEmailHash (env_EMAIL_SALT e) s in
  let h3 := createEmailHash (env_EMAIL_SALT e) (String_toUpperCase s) in
  fetch e req w =
  (json_response 200
     (VObj [("email", VStr s);
            ("hash1", VStr h); ("hash2", VStr h); ("hash3", VStr h3);
            ("same_email_same_hash", VBool true);
            ("case_insensitive", VBool (String.eqb h h3));
            ("deterministic", VBool (String.eqb h h3));
            ("message",
             VStr (if String.eqb h h3
                   then "Email hashing is working correctly"
                   else "Email hashing has issues"))]),
   traced [EvRequestJson] w)
  /\ forall auth,
       fst (fetch e (Request (method req) (pathname req) auth (json_body req)) w)
       = fst (fetch e req w).
Proof.
  intros Ht He Hs h h3. split; [now apply debug_run |].
  intros auth.
  rewrite (debug_run e req w s Ht He Hs).
  now rewrite (debug_run e (Request (method req) (pathname req) auth (json_body req))
                 w s Ht He Hs).
Qed.

(** ** Bearer tokens *)

Lemma reset_accepted e req w :
  targets req "POST" "/reset-password" ->
  token_accepted (bearer_token req) w = true ->
  fst (fetch e req w) <> unauthorized_response
  /\ exists evs, trace (snd (fetch e req w)) = (trace w ++ EvRequestJson :: evs)%list.
Proof.
  intros Ht Hacc.
  destruct (reset_cases e req w Ht Hacc)
    as [(s & cur & new & Hc) | (r & evs & Hf & Hr)].
  - rewrite (reset_run e req w s cur new Ht Hacc Hc).
    destruct (UserDatabase.getUserByEmailHash _ _) as [u |];
      [| split; [discriminate | eexists; tidy]].
    destruct (Bun_password_verify _ _) as [[] | err];
      try (split; [discriminate | eexists; tidy]).
    destruct (Bun_password_hash _ _); split; try discriminate; eexists; tidy.
  - rewrite Hf. split; [destruct Hr as [-> | ->]; discriminate |].
    eexists. reflexivity.
Qed.

(** C10.  The token is what is left of the [Authorization] header once
    the first occurrence of ["Bearer "] is removed.  A header that is
    exactly an active token therefore passes the guard of [/users],
    [/reset-password] and [/logout] like the prefixed one. *)
Theorem bearer_prefix_is_optional w t e req :
  reachable w -> t ∈ activeSessions w -> authorization req = Some t ->
  (forall r h, authorization r = Some h ->
     bearer_token r
     = Some match indexOf "Bearer " h with
            | Some i => take_chars i h +:+ drop_chars (i + 7) h
            | None => h
            end)
  /\ bearer_token req = Some t
  /\ (targets req "GET" "/users" -> status (fst (fetch e req w)) = 200)
  /\ (targets req "POST" "/logout" ->
      fst (fetch e req w) = logout_response
      /\ t ∉ activeSessions (snd (fetch e req w)))
  /\ (targets req "POST" "/reset-password" ->
      fst (fetch e req w) <> unauthorized_response
      /\ exists evs, trace (snd (fetch e req w)) = (trace w ++ EvRequestJson :: evs)%list).
Proof.
  intros Hw Ht Hauth.
  destruct (reachable_tokens w Hw t Ht) as [Hne Hchars].
  assert (Hb : bearer_token req = Some t)
    by (apply bearer_token_bare; [exact Hauth | now apply indexOf_Bearer_radix36]).
  assert (Hacc : token_accepted (bearer_token req) w = true)
    by (rewrite Hb; now apply token_accepted_iff).
  split; [| split; [exact Hb | split; [| split]]].
  - intros r h Hh. unfold bearer_token. rewrite Hh, replace_indexOf.
    destruct (indexOf "Bearer " h); reflexivity.
  - intros Hr. now rewrite (users_run e req w Hr), Hacc.
  - intros Hr. rewrite (logout_run e req w Hr), Hacc, Hb. simpl.
    split; [reflexivity |].
    intros [_ Hn]%elem_of_difference. apply Hn. now apply elem_of_singleton.
  - intros Hr. now apply reset_accepted.
Qed.

(** * Further properties of the server *)

(** ** Dispatch *)

Lemma targets_dec (req : request) (verb path : string) :
  {targets req verb path} + {~ targets req verb path}.
Proof.
  unfold targets.
  destruct (String.eqb_spec (method req) verb), (String.eqb_spec (pathname req) path);
    [left | right | right | right]; tauto.
Qed.

Lemma off_route (req : request) (verb path : string) :
  ~ targets req verb path ->
  String.eqb (pathname req) path && String.eqb (method req) verb = false.
Proof.
  intros H. apply not_true_is_false. intros Hb. apply H.
  apply andb_true_iff in Hb as [Hp Hm]. apply String.eqb_eq in Hp, Hm. now split.
Qed.

(** X10.  The preflight answer comes before every route, the protected
    ones included; [GET /] needs no token; and a request that matches no
    route, such as a known path with another method, is answered with 404
    and the list of routes.  None of them touches the state. *)
Theorem unrouted_requests e req w :
  (method req = "OPTIONS" -> fetch e req w = (Response 200 corsHeaders None, w))
  /\ (targets req "GET" "/" -> fetch e req w = (json_response 200 api_documentation, w))
  /\ (method req <> "OPTIONS" ->
      (forall verb path, In (verb, path) routes -> ~ targets req verb path) ->
      fetch e req w = (route_not_found, w)).
Proof.
  split; [| split].
  - intros Hm. unfold fetch. now rewrite Hm.
  - intros [Hm Hp]. unfold fetch, route. now rewrite Hm, Hp.
  - intros Hm Hno. unfold fetch, route. cbv zeta beta.
    apply String.eqb_neq in Hm. rewrite Hm.
    rewrite (off_route req "POST" "/register"), (off_route req "POST" "/login"),
      (off_route req "GET" "/users"), (off_route req "POST" "/reset-password"),
      (off_route req "POST" "/logout"), (off_route req "POST" "/debug/test-hash"),
      (off_route req "GET" "/");
      try (apply Hno; simpl; tauto).
    reflexivity.
Qed.

Lemma dispatch_cases (req : request) :
  targets req "POST" "/register" \/ targets req "POST" "/login"
  \/ targets req "GET" "/users" \/ targets req "POST" "/reset-password"
  \/ targets req "POST" "/logout" \/ targets req "POST" "/debug/test-hash"
  \/ method req = "OPTIONS" \/ targets req "GET" "/"
  \/ (method req <> "OPTIONS"
      /\ forall verb path, In (verb, path) routes -> ~ targets req verb path).
Proof.
  destruct (targets_dec req "POST" "/register"); [tauto |].
  destruct (targets_dec req "POST" "/login"); [tauto |].
  destruct (targets_dec req "GET" "/users"); [tauto |].
  destruct (targets_dec req "POST" "/reset-password"); [tauto |].
  destruct (targets_dec req "POST" "/logout"); [tauto |].
  destruct (targets_dec req "POST" "/debug/test-hash"); [tauto |].
  destruct (targets_dec req "GET" "/"); [tauto |].
  destruct (String.eqb_spec (method req) "OPTIONS"); [tauto |].
  repeat right. split; [assumption |].
  intros verb path Hin. simpl in Hin.
  repeat (destruct Hin as [Hin | Hin]; [injection Hin as <- <-; assumption |]).
  destruct Hin.
Qed.

(** ** What a request can do to the state *)

Lemma json_response_shaped (st : Z) (payload : value) :
  In st [200; 400; 401; 404; 500] -> well_shaped (json_response st payload).
Proof. intros H. split; [exact H |]. right. split; [reflexivity | discriminate]. Qed.

Ltac shaped :=
  unfold unauthorized_response, error_response, internal_server_error, route_not_found,
    session_response, logout_response, reset_response;
  first [ apply json_response_shaped; simpl; tauto
        | split; [simpl; tauto | left; split; reflexivity] ].

Ltac quiet :=
  left; simpl;
  split; [reflexivity |];
  split; [reflexivity |];
  split; [shaped |];
  split; [first [ intros _; assumption | intros Hbody; discriminate Hbody ] |];
  split; discriminate.

(** Every request either leaves store and sessions alone, or is one of
    the four successful operations that change them. *)
Lemma fetch_cases e req w :
  let out := fetch e req w in
  let t := createSessionToken e in
  (userDb (snd out) = userDb w /\ activeSessions (snd out) = activeSessions w
   /\ well_shaped (fst out)
   /\ (body (fst out) = None -> method req = "OPTIONS")
   /\ fst out <> session_response "User registered successfully" t
   /\ fst out <> session_response "Login successful" t)
  \/ (targets req "POST" "/register"
      /\ exists s pw ph,
           carries_credentials req s pw
           /\ Bun_password_hash pw (password_entropy e) = Ok ph
           /\ UserDatabase.getUserByEmailHash (createEmailHash (env_EMAIL_SALT e) s)
                (userDb w) = None
           /\ fst out = session_response "User registered successfully" t
           /\ userDb (snd out)
              = UserDatabase.Table
                  (UserDatabase.rows (userDb w)
                   ++ [UserDatabase.Row (UserDatabase.sequence (userDb w) + 1)
                         (createEmailHash (env_EMAIL_SALT e) s) ph (CURRENT_TIMESTAMP e)])
                  (UserDatabase.sequence (userDb w) + 1)
           /\ activeSessions (snd out) = {[t]} ∪ activeSessions w)
  \/ (targets req "POST" "/login"
      /\ fst out = session_response "Login successful" t
      /\ userDb (snd out) = userDb w
      /\ activeSessions (snd out) = {[t]} ∪ activeSessions w)
  \/ (targets req "POST" "/reset-password"
      /\ exists s cur new u nh,
           carries_reset req s cur new
           /\ UserDatabase.getUserByEmailHash (createEmailHash (env_EMAIL_SALT e) s)
                (userDb w) = Some u
           /\ Bun_password_verify cur (UserDatabase.password_hash u) = Ok true
           /\ Bun_password_hash new (password_entropy e) = Ok nh
           /\ fst out = reset_response
           /\ userDb (snd out)
              = UserDatabase.updatePassword (createEmailHash (env_EMAIL_SALT e) s) nh
                  (userDb w)
           /\ activeSessions (snd out) = activeSessions w)
  \/ (targets req "POST" "/logout"
      /\ exists tok,
           bearer_token req = Some tok /\ tok ∈ activeSessions w
           /\ fst out = logout_response
           /\ userDb (snd out) = userDb w
           /\ activeSessions (snd out) = activeSessions w ∖ {[tok]}).
Proof.
  intros out t. subst out t.
  destruct (dispatch_cases req) as [H | [H | [H | [H | [H | [H | [H | [H | H]]]]]]]].
  - destruct (register_cases e req w H) as [(s & pw & Hc) | (r & evs & Hf & Hr)].
    + rewrite (register_run e req w s pw H Hc).
      destruct (Bun_password_hash _ _) as [ph | err] eqn:Hh;
        [| quiet].
      destruct (UserDatabase.getUserByEmailHash _ _) eqn:Hu;
        [quiet |].
      right. left. split; [exact H |]. exists s, pw, ph. simpl. auto 10.
    + rewrite Hf. destruct Hr as [-> | ->]; quiet.
  - destruct (login_cases e req w H) as [(s & pw & Hc) | (r & evs & Hf & Hr)].
    + rewrite (login_run e req w s pw H Hc).
      destruct (UserDatabase.getUserByEmailHash _ _);
        [| quiet].
      destruct (Bun_password_verify _ _) as [[] | err];
        [| quiet
         | quiet].
      right. right. left. simpl. auto.
    + rewrite Hf. destruct Hr as [-> | ->]; quiet.
  - rewrite (users_run e req w H).
    destruct (token_accepted _ _); quiet.
  - destruct (token_accepted (bearer_token req) w) eqn:Hacc.
    + destruct (reset_cases e req w H Hacc)
        as [(s & cur & new & Hc) | (r & evs & Hf & Hr)].
      * rewrite (reset_run e req w s cur new H Hacc Hc).
        destruct (UserDatabase.getUserByEmailHash _ _) as [u |] eqn:Hu;
          [| quiet].
        destruct (Bun_password_verify _ _) as [[] | err] eqn:Hv;
          [| quiet
           | quiet].
        destruct (Bun_password_hash _ _) as [nh | err] eqn:Hh;
          [| quiet].
        right. right. right. left. split; [exact H |].
        exists s, cur, new, u, nh. simpl. auto 10.
      * rewrite Hf. destruct Hr as [-> | ->]; quiet.
    + rewrite (reset_unauthorized_run e req w H Hacc). quiet.
  - rewrite (logout_run e req w H).
    destruct (token_accepted (bearer_token req) w) eqn:Hacc;
      [| quiet].
    destruct (bearer_token req) as [tok |] eqn:Hb; [| discriminate Hacc].
    apply token_accepted_iff in Hacc as [_ Hin].
    repeat right. split; [exact H |]. exists tok. simpl. auto.
  - destruct H as [Hm Hp]. unfold fetch, route. rewrite Hm, Hp. simpl.
    unfold handle_debug_test_hash, parseRequestBody, mbind, M_bind. simpl.
    fold (parsed_body req).
    by_email_shape He; simpl; try quiet.
    + destruct (n =? 0); quiet.
    + destruct (String.eqb s "") eqn:Hs; quiet.
  - rewrite (proj1 (unrouted_requests e req w) H). quiet.
  - rewrite (proj1 (proj2 (unrouted_requests e req w)) H). quiet.
  - destruct H as [Hm Hno].
    rewrite (proj2 (proj2 (unrouted_requests e req w)) Hm Hno). quiet.
Qed.

(** *** Inserts

    Requests that end before the store is reached leave only quiet events
    in the trace. *)

Ltac settle_quiet :=
  solve [right; eexists _, _; split; [tidy | reflexivity]].

Ltac traced_quiet :=
  solve [eexists _, _; split; [tidy | reflexivity]].

Lemma register_quiet e req w :
  targets req "POST" "/register" ->
  (exists s pw, carries_credentials req s pw)
  \/ (exists r evs, fetch e req w = (r, traced evs w)
      /\ forallb quiet_event evs = true).
Proof.
  intros Ht. enter Ht.
  unfold handle_register, parseRequestBody, mbind, M_bind. simpl.
  fold (parsed_body req).
  destruct (truthy (parsed_body req)?."password") eqn:Hpw;
    [| rewrite orb_true_r; settle_quiet].
  by_email_shape He; simpl; try settle_quiet.
  - destruct (n =? 0); simpl; settle_quiet.
  - destruct (String.eqb s "") eqn:Hs; simpl; [settle_quiet |].
    left. exists s, ((parsed_body req)?."password").
    repeat split; auto. now apply String.eqb_neq.
  - unfold console_log_with, console_log, lift, emit, mbind, M_bind.
    destruct (ToString (VArr items)); simpl; settle_quiet.
  - unfold console_log_with, console_log, lift, emit, mbind, M_bind.
    destruct (ToString (VObj props)); simpl; settle_quiet.
Qed.

Lemma login_quiet e req w :
  targets req "POST" "/login" ->
  (exists s pw, carries_credentials req s pw)
  \/ (exists r evs, fetch e req w = (r, traced evs w)
      /\ forallb quiet_event evs = true).
Proof.
  intros Ht. enter Ht.
  unfold handle_login, parseRequestBody, mbind, M_bind. simpl.
  fold (parsed_body req).
  destruct (truthy (parsed_body req)?."password") eqn:Hpw;
    [| rewrite orb_true_r; settle_quiet].
  by_email_shape He; simpl; try settle_quiet.
  - destruct (n =? 0); simpl; settle_quiet.
  - destruct (String.eqb s "") eqn:Hs; simpl; [settle_quiet |].
    left. exists s, ((parsed_body req)?."password").
    repeat split; auto. now apply String.eqb_neq.
  - unfold console_log_with, console_log, lift, emit, mbind, M_bind.
    destruct (ToString (VArr items)); simpl; settle_quiet.
  - unfold console_log_with, console_log, lift, emit, mbind, M_bind.
    destruct (ToString (VObj props)); simpl; settle_quiet.
Qed.

Lemma reset_quiet e req w :
  targets req "POST" "/reset-password" ->
  token_accepted (bearer_token req) w = true ->
  (exists s cur new, carries_reset req s cur new)
  \/ (exists r evs, fetch e req w = (r, traced evs w)
      /\ forallb quiet_event evs = true).
Proof.
  intros Ht Hacc. enter Ht.
  unfold handle_reset_password, mbind at 1, M_bind at 1. rewrite session_ok_run, Hacc.
  unfold parseRequestBody, mbind, M_bind. simpl.
  fold (parsed_body req).
  destruct (truthy (parsed_body req)?."currentPassword") eqn:Hcur;
    [| rewrite orb_true_r; settle_quiet].
  destruct (truthy (parsed_body req)?."newPassword") eqn:Hnew;
    [| rewrite orb_true_r; settle_quiet].
  by_email_shape He; simpl; try settle_quiet.
  - destruct (n =? 0); simpl; settle_quiet.
  - destruct (String.eqb s "") eqn:Hs; simpl; [settle_quiet |].
    left. exists s, ((parsed_body req)?."currentPassword"),
      ((parsed_body req)?."newPassword").
    repeat split; auto. now apply String.eqb_neq.
  - unfold console_log_with, console_log, lift, emit, mbind, M_bind.
    destruct (ToString (VArr items)); simpl; settle_quiet.
  - unfold console_log_with, console_log, lift, emit, mbind, M_bind.
    destruct (ToString (VObj props)); simpl; settle_quiet.
Qed.

Lemma debug_quiet e req w :
  targets req "POST" "/debug/test-hash" ->
  exists r evs, fetch e req w = (r, traced evs w)
                /\ forallb quiet_event evs = true.
Proof.
  intros Ht. enter Ht.
  unfold handle_debug_test_hash, parseRequestBody, mbind, M_bind. simpl.
  fold (parsed_body req).
  by_email_shape He; simpl; try traced_quiet.
  - destruct (n =? 0); simpl; traced_quiet.
  - destruct (String.eqb s "") eqn:Hs; simpl; traced_quiet.
Qed.

Lemma quiet_no_insert (evs : list event) (h ph : string) :
  forallb quiet_event evs = true -> ~ In (EvAddUser h ph) evs.
Proof.
  intros Hq Hin. rewrite forallb_forall in Hq. specialize (Hq _ Hin). discriminate Hq.
Qed.

(** The events of a request, read off the final trace. *)
Ltac events :=
  first [ eexists; split;
          [unfold traced, log_line; simpl; rewrite <- ?app_assoc; simpl; reflexivity |]
        | exists []; split; [symmetry; apply app_nil_r |] ].

Ltac no_insert :=
  let Hin := fresh "Hin" in
  intros ? ? Hin; simpl in Hin;
  repeat (destruct Hin as [Hin | Hin]; [discriminate Hin |]);
  destruct Hin.

Ltac quiet_events Hf Hq :=
  rewrite Hf; eexists; split; [reflexivity |];
  intros ? ? Hin; exfalso; exact (quiet_no_insert _ _ _ Hq Hin).

(** A request issues an INSERT on one path only: a registration whose
    lookup found no record.  The statement then succeeds. *)
Lemma fetch_inserts e req w :
  exists evs,
    trace (snd (fetch e req w)) = (trace w ++ evs)%list
    /\ forall h ph,
         In (EvAddUser h ph) evs ->
         UserDatabase.getUserByEmailHash h (userDb w) = None
         /\ fst (fetch e req w)
            = session_response "User registered successfully" (createSessionToken e).
Proof.
  destruct (dispatch_cases req) as [H | [H | [H | [H | [H | [H | [H | [H | H]]]]]]]].
  - destruct (register_quiet e req w H) as [(s & pw & Hc) | (r & evs & Hf & Hq)];
      [| quiet_events Hf Hq].
    rewrite (register_run e req w s pw H Hc).
    destruct (Bun_password_hash _ _) as [ph | err]; [| events; no_insert].
    destruct (UserDatabase.getUserByEmailHash _ _) eqn:Hu; [events; no_insert |].
    events. intros h' ph' Hin. simpl in Hin.
    repeat (destruct Hin as [Hin | Hin];
            [first [ discriminate Hin
                   | injection Hin as <- <-; split; [exact Hu | reflexivity] ] |]).
    destruct Hin.
  - destruct (login_quiet e req w H) as [(s & pw & Hc) | (r & evs & Hf & Hq)];
      [| quiet_events Hf Hq].
    rewrite (login_run e req w s pw H Hc).
    destruct (UserDatabase.getUserByEmailHash _ _); [| events; no_insert].
    destruct (Bun_password_verify _ _) as [[] | err]; events; no_insert.
  - rewrite (users_run e req w H).
    destruct (token_accepted _ _); events; no_insert.
  - destruct (token_accepted (bearer_token req) w) eqn:Hacc;
      [| rewrite (reset_unauthorized_run e req w H Hacc); events; no_insert].
    destruct (reset_quiet e req w H Hacc)
      as [(s & cur & new & Hc) | (r & evs & Hf & Hq)];
      [| quiet_events Hf Hq].
    rewrite (reset_run e req w s cur new H Hacc Hc).
    destruct (UserDatabase.getUserByEmailHash _ _) as [u |]; [| events; no_insert].
    destruct (Bun_password_verify _ _) as [[] | err]; [| events; no_insert ..].
    destruct (Bun_password_hash _ _) as [nh | err]; events; no_insert.
  - rewrite (logout_run e req w H).
    destruct (token_accepted _ _); events; no_insert.
  - destruct (debug_quiet e req w H) as (r & evs & Hf & Hq). quiet_events Hf Hq.
  - rewrite (proj1 (unrouted_requests e req w) H). events; no_insert.
  - rewrite (proj1 (proj2 (unrouted_requests e req w)) H). events; no_insert.
  - destruct H as [Hm Hno].
    rewrite (proj2 (proj2 (unrouted_requests e req w)) Hm Hno). events; no_insert.
Qed.

(** X1.  The constraints of the table hold after every request when they
    held before it: hashes stay unique, rowids stay unique and never
    exceed the sequence.  The handlers keep them themselves and never rely
    on the failure of an INSERT: a request issues an INSERT only for a
    hash that has no record, and the registration then succeeds. *)
Theorem fetch_preserves_store_ok e req w :
  store_ok (userDb w) ->
  store_ok (userDb (snd (fetch e req w)))
  /\ exists evs,
       trace (snd (fetch e req w)) = (trace w ++ evs)%list
       /\ forall h ph,
            In (EvAddUser h ph) evs ->
            UserDatabase.getUserByEmailHash h (userDb w) = None
            /\ fst (fetch e req w)
               = session_response "User registered successfully" (createSessionToken e).
Proof.
  intros Hok. split; [| apply fetch_inserts].
  destruct (fetch_cases e req w)
    as [(Hdb & _) | [(_ & s & pw & ph & _ & _ & Hu & _ & Hdb & _)
       | [(_ & _ & Hdb & _) | [(_ & s & cur & new & u & nh & _ & _ & _ & _ & _ & Hdb & _)
       | (_ & tok & _ & _ & _ & Hdb & _)]]]];
    rewrite Hdb; try assumption.
  - now apply store_ok_add.
  - now apply store_ok_update.
Qed.

(** X8.  An answer with status 500 means nothing was done: whatever threw
    did so before the first change of store or sessions. *)
Theorem internal_error_changes_nothing e req w :
  status (fst (fetch e req w)) = 500 ->
  fst (fetch e req w) = internal_server_error
  /\ userDb (snd (fetch e req w)) = userDb w
  /\ activeSessions (snd (fetch e req w)) = activeSessions w.
Proof.
  intros H500.
  assert (Hquiet : userDb (snd (fetch e req w)) = userDb w
                   /\ activeSessions (snd (fetch e req w)) = activeSessions w).
  { destruct (fetch_cases e req w)
      as [(Hdb & Hs & _) | [(_ & s & pw & ph & _ & _ & _ & Hr & _)
         | [(_ & Hr & _) | [(_ & s & cur & new & u & nh & _ & _ & _ & _ & Hr & _)
         | (_ & tok & _ & _ & Hr & _)]]]];
      [now split | | | |]; rewrite Hr in H500; discriminate H500. }
  split; [| exact Hquiet].
  destruct (dispatch_cases req) as [H | [H | [H | [H | [H | [H | [H | [H | H]]]]]]]].
  - destruct (register_cases e req w H) as [(s & pw & Hc) | (r & evs & Hf & Hr)].
    + revert H500. rewrite (register_run e req w s pw H Hc).
      destruct (Bun_password_hash _ _); [| reflexivity].
      destruct (UserDatabase.getUserByEmailHash _ _); discriminate.
    + revert H500. rewrite Hf. destruct Hr as [-> | ->]; [discriminate | reflexivity].
  - destruct (login_cases e req w H) as [(s & pw & Hc) | (r & evs & Hf & Hr)].
    + revert H500. rewrite (login_run e req w s pw H Hc).
      destruct (UserDatabase.getUserByEmailHash _ _); [| discriminate].
      destruct (Bun_password_verify _ _) as [[] |]; try discriminate. reflexivity.
    + revert H500. rewrite Hf. destruct Hr as [-> | ->]; [discriminate | reflexivity].
  - revert H500. rewrite (users_run e req w H).
    destruct (token_accepted _ _); discriminate.
  - destruct (token_accepted (bearer_token req) w) eqn:Hacc.
    + destruct (reset_cases e req w H Hacc)
        as [(s & cur & new & Hc) | (r & evs & Hf & Hr)].
      * revert H500. rewrite (reset_run e req w s cur new H Hacc Hc).
        destruct (UserDatabase.getUserByEmailHash _ _); [| discriminate].
        destruct (Bun_password_verify _ _) as [[] |]; try discriminate; try reflexivity.
        destruct (Bun_password_hash _ _); [discriminate | reflexivity].
      * revert H500. rewrite Hf. destruct Hr as [-> | ->]; [discriminate | reflexivity].
    + revert H500. rewrite (reset_unauthorized_run e req w H Hacc). discriminate.
  - revert H500. rewrite (logout_run e req w H).
    destruct (token_accepted _ _); discriminate.
  - revert H500. destruct H as [Hm Hp]. unfold fetch, route. rewrite Hm, Hp. simpl.
    unfold handle_debug_test_hash, parseRequestBody, mbind, M_bind. simpl.
    fold (parsed_body req).
    by_email_shape He; simpl; try discriminate; try reflexivity.
    + destruct (n =? 0); [discriminate | reflexivity].
    + destruct (String.eqb s ""); discriminate.
  - revert H500. rewrite (proj1 (unrouted_requests e req w) H). discriminate.
  - revert H500. rewrite (proj1 (proj2 (unrouted_requests e req w)) H). discriminate.
  - revert H500. destruct H as [Hm Hno].
    rewrite (proj2 (proj2 (unrouted_requests e req w)) Hm Hno). discriminate.
Qed.

(** X9.  Whatever the request, the answer has one of five statuses, has
    the three CORS headers, and is JSON with a body, except the preflight
    answer, which has no body and no content type. *)
Theorem fetch_response_shape e req w :
  well_shaped (fst (fetch e req w))
  /\ (body (fst (fetch e req w)) = None <-> method req = "OPTIONS").
Proof.
  destruct (fetch_cases e req w)
    as [(_ & _ & Hs & Hb & _) | [(H & s & pw & ph & _ & _ & _ & Hr & _)
       | [(H & Hr & _) | [(H & s & cur & new & u & nh & _ & _ & _ & _ & Hr & _)
       | (H & tok & _ & _ & Hr & _)]]]].
  - split; [exact Hs |]. split; [exact Hb |].
    intros Hm. now rewrite (proj1 (unrouted_requests e req w) Hm).
  - destruct H as [Hm _]. rewrite Hr. split; [shaped |].
    split; [discriminate | rewrite Hm; discriminate].
  - destruct H as [Hm _]. rewrite Hr. split; [shaped |].
    split; [discriminate | rewrite Hm; discriminate].
  - destruct H as [Hm _]. rewrite Hr. split; [shaped |].
    split; [discriminate | rewrite Hm; discriminate].
  - destruct H as [Hm _]. rewrite Hr. split; [shaped |].
    split; [discriminate | rewrite Hm; discriminate].
Qed.

(** X11.  No route deletes or renumbers a record: after a request the
    table lists the same identifiers, hashes and dates in the same order,
    followed by at most one new record, and a new record means a
    successful registration.  Only [/register] and [/reset-password] can
    change the store at all. *)
Theorem store_rows_never_removed e req w :
  let db := userDb w in
  let db' := userDb (snd (fetch e req w)) in
  (exists added,
     List.map row_key (UserDatabase.rows db')
     = (List.map row_key (UserDatabase.rows db) ++ added)%list
     /\ (List.length added <= 1)%nat
     /\ (added <> [] ->
         targets req "POST" "/register" /\ status (fst (fetch e req w)) = 200))
  /\ (db' <> db ->
      targets req "POST" "/register" \/ targets req "POST" "/reset-password").
Proof.
  intros db db'. subst db db'.
  destruct (fetch_cases e req w)
    as [(Hdb & _) | [(H & s & pw & ph & _ & _ & _ & Hr & Hdb & _)
       | [(H & Hr & Hdb & _) | [(H & s & cur & new & u & nh & _ & _ & _ & _ & Hr & Hdb & _)
       | (H & tok & _ & _ & Hr & Hdb & _)]]]];
    rewrite Hdb.
  - split; [| intros Hne; now elim Hne]. exists []. rewrite app_nil_r.
    split; [reflexivity |]. split; [simpl; lia | intros Hne; now elim Hne].
  - split; [| now left]. eexists. simpl. rewrite List.map_app. simpl.
    split; [reflexivity |]. split; [simpl; lia |]. intros _. split; [exact H |].
    now rewrite Hr.
  - split; [| intros Hne; now elim Hne]. exists []. rewrite app_nil_r.
    split; [reflexivity |]. split; [simpl; lia | intros Hne; now elim Hne].
  - split; [| now right]. exists []. rewrite app_nil_r.
    destruct (updatePassword_then_lookup
                (createEmailHash (env_EMAIL_SALT e) s) nh (userDb w))
      as (_ & _ & Hkeys & _).
    split; [exact Hkeys |]. split; [simpl; lia | intros Hne; now elim Hne].
  - split; [| intros Hne; now elim Hne]. exists []. rewrite app_nil_r.
    split; [reflexivity |]. split; [simpl; lia | intros Hne; now elim Hne].
Qed.

(** X12.  The session set changes in two ways only.  A token leaves it
    through a successful [/logout] that presented exactly that token, so
    every other session survives any request; and the only token that can
    enter is the one issued by a successful [/register] or [/login]. *)
Theorem session_set_changes e req w :
  let sessions := activeSessions w in
  let sessions' := activeSessions (snd (fetch e req w)) in
  (forall t, t ∈ sessions -> t ∉ sessions' ->
             targets req "POST" "/logout" /\ bearer_token req = Some t
             /\ fst (fetch e req w) = logout_response)
  /\ (forall t, t ∈ sessions' -> t ∉ sessions ->
                t = createSessionToken e
                /\ status (fst (fetch e req w)) = 200
                /\ (targets req "POST" "/register" \/ targets req "POST" "/login")).
Proof.
  intros sessions sessions'. subst sessions sessions'.
  destruct (fetch_cases e req w)
    as [(_ & Hs & _) | [(H & s & pw & ph & _ & _ & _ & Hr & _ & Hs)
       | [(H & Hr & _ & Hs) | [(H & s & cur & new & u & nh & _ & _ & _ & _ & Hr & _ & Hs)
       | (H & tok & Hb & _ & Hr & _ & Hs)]]]];
    rewrite Hs; split; intros t Hin Hout.
  - now elim Hout.
  - now elim Hout.
  - elim Hout. now apply elem_of_union_r.
  - apply elem_of_union in Hin as [Hin | Hin]; [| now elim Hout].
    apply elem_of_singleton in Hin. rewrite Hr. split; [exact Hin |]. split; auto.
  - elim Hout. now apply elem_of_union_r.
  - apply elem_of_union in Hin as [Hin | Hin]; [| now elim Hout].
    apply elem_of_singleton in Hin. rewrite Hr. split; [exact Hin |]. split; auto.
  - now elim Hout.
  - now elim Hout.
  - destruct (decide (t = tok)) as [-> | Hne]; [now rewrite Hr |].
    elim Hout. apply elem_of_difference. split; [exact Hin |].
    intros Ht. apply elem_of_singleton in Ht. now elim Hne.
  - apply elem_of_difference in Hin as [Hin _]. now elim Hout.
Qed.

(** ** The protected listing *)

(** X5.  [GET /users] reads the store only for an accepted token.  Then it
    answers with every record of the table, in table order, each with its
    rowid, both hashes and its date, and with their number; otherwise it
    answers 401 and the state, trace included, is untouched. *)
Theorem users_listing e req w :
  targets req "GET" "/users" ->
  (token_accepted (bearer_token req) w = false ->
   fetch e req w = (unauthorized_response, w))
  /\ (token_accepted (bearer_token req) w = true ->
      exists message note log,
        fst (fetch e req w)
        = json_response 200
            (VObj [("success", VBool true); ("message", VStr message);
                   ("users",
                    VArr (List.map UserDatabase.row_to_value
                            (UserDatabase.rows (userDb w))));
                   ("total_users",
                    VNum (Z.of_nat (List.length (UserDatabase.rows (userDb w)))));
                   ("security_note", VStr note)])
        /\ snd (fetch e req w) = traced [EvGetAllUsers; EvConsoleLog log] w).
Proof.
  intros Ht. rewrite (users_run e req w Ht). split; intros Hacc; rewrite Hacc.
  - reflexivity.
  - eexists _, _, _. split; reflexivity.
Qed.

(** ** Bodies without the required fields *)

Lemma parsed_body_rejected req k :
  json_body req = None -> (parsed_body req)?.k = VUndefined.
Proof. intros H. unfold parsed_body. now rewrite H. Qed.

(** X6.  A body that lacks a required field, or holds a falsy value for
    it (an empty string, zero, false, null), is answered with 400 before
    anything else happens: no hash is computed and the store is not
    consulted.  A body that is no JSON at all counts as a body without
    fields. *)
Theorem missing_fields_rejected e req w :
  let absent k := truthy (parsed_body req)?.k = false in
  let only_parsed := traced [EvRequestJson] w in
  (targets req "POST" "/register" \/ targets req "POST" "/login" ->
   absent "email" \/ absent "password" ->
   fetch e req w = (error_response 400 "Email and password required", only_parsed))
  /\ (targets req "POST" "/reset-password" ->
      token_accepted (bearer_token req) w = true ->
      absent "email" \/ absent "currentPassword" \/ absent "newPassword" ->
      fetch e req w
      = (error_response 400 "Email, current password, and new password required",
         only_parsed))
  /\ (targets req "POST" "/debug/test-hash" -> absent "email" ->
      fetch e req w = (error_response 400 "Email required", only_parsed))
  /\ (json_body req = None -> forall k, absent k).
Proof.
  intros absent only_parsed. subst absent only_parsed. cbv beta.
  split; [| split; [| split]].
  - intros [Ht | Ht] Hab; enter Ht.
    + unfold handle_register, parseRequestBody, mbind, M_bind. simpl.
      fold (parsed_body req).
      destruct Hab as [-> | ->]; rewrite ?orb_true_r; reflexivity.
    + unfold handle_login, parseRequestBody, mbind, M_bind. simpl.
      fold (parsed_body req).
      destruct Hab as [-> | ->]; rewrite ?orb_true_r; reflexivity.
  - intros Ht Hacc Hab. enter Ht.
    unfold handle_reset_password, mbind at 1, M_bind at 1. rewrite session_ok_run, Hacc.
    unfold parseRequestBody, mbind, M_bind. simpl. fold (parsed_body req).
    destruct Hab as [-> | [-> | ->]]; rewrite ?orb_true_r; reflexivity.
  - intros Ht Hab. enter Ht.
    unfold handle_debug_test_hash, parseRequestBody, mbind, M_bind. simpl.
    fold (parsed_body req). now rewrite Hab.
  - intros Hnone k. now rewrite parsed_body_rejected.
Qed.

(** ** An [email] that is not a string *)

Ltac thrown := solve [eexists; split; [tidy | reflexivity]].

Ltac by_non_string Htr Hns :=
  let He := fresh "He" in
  by_email_shape He; simpl in Htr; try discriminate Htr;
  [ simpl; thrown
  | simpl; destruct (_ =? 0); [discriminate Htr | simpl; thrown]
  | match goal with
    | H : forall s, VStr ?s0 <> VStr s |- _ => now elim (H s0)
    end
  | first [ simpl; thrown
          | unfold console_log_with, console_log, lift, emit, mbind, M_bind;
            destruct (ToString (VArr _)); simpl; thrown ]
  | first [ simpl; thrown
          | unfold console_log_with, console_log, lift, emit, mbind, M_bind;
            destruct (ToString (VObj _)); simpl; thrown ] ].

(** X7.  The handlers do not check that [email] is a string.  A truthy
    [email] of another type (a number, [true], an array, an object) makes
    [createEmailHash] throw, so the answer is 500; this happens before any
    password is hashed or verified and before the store is consulted. *)
Theorem non_string_email_is_internal_error e req w :
  truthy (parsed_body req)?."email" = true ->
  (forall s, (parsed_body req)?."email" <> VStr s) ->
  (targets req "POST" "/register" /\ truthy (parsed_body req)?."password" = true)
  \/ (targets req "POST" "/login" /\ truthy (parsed_body req)?."password" = true)
  \/ (targets req "POST" "/reset-password"
      /\ token_accepted (bearer_token req) w = true
      /\ truthy (parsed_body req)?."currentPassword" = true
      /\ truthy (parsed_body req)?."newPassword" = true)
  \/ targets req "POST" "/debug/test-hash" ->
  exists evs,
    fetch e req w = (internal_server_error, traced evs w)
    /\ forallb quiet_event evs = true.
Proof.
  intros Htr Hns Hroute.
  destruct Hroute as [[Ht Hpw] | [[Ht Hpw] | [(Ht & Hacc & Hcur & Hnew) | Ht]]]; enter Ht.
  - unfold handle_register, parseRequestBody, mbind, M_bind. simpl.
    fold (parsed_body req). rewrite Hpw. by_non_string Htr Hns.
  - unfold handle_login, parseRequestBody, mbind, M_bind. simpl.
    fold (parsed_body req). rewrite Hpw. by_non_string Htr Hns.
  - unfold handle_reset_password, mbind at 1, M_bind at 1. rewrite session_ok_run, Hacc.
    unfold parseRequestBody, mbind, M_bind. simpl.
    fold (parsed_body req). rewrite Hcur, Hnew. by_non_string Htr Hns.
  - unfold handle_debug_test_hash, parseRequestBody, mbind, M_bind. simpl.
    fold (parsed_body req). by_non_string Htr Hns.
Qed.

(** ** Operations in sequence *)

(** X13.  Register, then log in.  After a successful registration, a
    login with an identifier of the same hash (the same address in another
    case or with padding) is decided by the verification of the submitted
    password against the hash stored at registration: true gives 200 and a
    token, false gives 401. *)
Theorem register_then_login e req w s pw ph :
  targets req "POST" "/register" -> carries_credentials req s pw ->
  Bun_password_hash pw (password_entropy e) = Ok ph ->
  UserDatabase.getUserByEmailHash (createEmailHash (env_EMAIL_SALT e) s) (userDb w) = None ->
  forall e' req' s' pw' valid,
    targets req' "POST" "/login" -> carries_credentials req' s' pw' ->
    createEmailHash (env_EMAIL_SALT e') s' = createEmailHash (env_EMAIL_SALT e) s ->
    Bun_password_verify pw' ph = Ok valid ->
    fst (fetch e' req' (snd (fetch e req w)))
    = if valid then session_response "Login successful" (createSessionToken e')
      else error_response 401 "Invalid credentials".
Proof.
  intros Ht Hc Hh Hu e' req' s' pw' valid Ht' Hc' Hs' Hv.
  rewrite (register_run e req w s pw Ht Hc), Hh, Hu.
  rewrite (login_run e' req' _ s' pw' Ht' Hc'), Hs'. simpl.
  destruct (addUser_then_lookup (CURRENT_TIMESTAMP e)
              (createEmailHash (env_EMAIL_SALT e) s) ph (userDb w)) as [Hadd _].
  destruct (Hadd Hu) as (db' & Hok & _ & _ & Hfound & _).
  unfold UserDatabase.addUser in Hok. rewrite Hu in Hok. injection Hok as <-.
  rewrite Hfound. simpl. rewrite Hv. now destruct valid.
Qed.

(** X14.  Reset, then log in.  A reset whose current secret verifies
    stores the hash of the new secret and leaves the session set as it
    was (the token of the caller stays valid); from then on a login for
    that identifier is decided by the verification against the new hash
    alone. *)
Theorem reset_then_login e req w s cur new u nh :
  targets req "POST" "/reset-password" ->
  token_accepted (bearer_token req) w = true ->
  carries_reset req s cur new ->
  UserDatabase.getUserByEmailHash (createEmailHash (env_EMAIL_SALT e) s) (userDb w) = Some u ->
  Bun_password_verify cur (UserDatabase.password_hash u) = Ok true ->
  Bun_password_hash new (password_entropy e) = Ok nh ->
  fst (fetch e req w) = reset_response
  /\ activeSessions (snd (fetch e req w)) = activeSessions w
  /\ UserDatabase.getUserByEmailHash (createEmailHash (env_EMAIL_SALT e) s)
       (userDb (snd (fetch e req w))) = Some (set_password nh u)
  /\ forall e' req' s' pw' valid,
       targets req' "POST" "/login" -> carries_credentials req' s' pw' ->
       createEmailHash (env_EMAIL_SALT e') s' = createEmailHash (env_EMAIL_SALT e) s ->
       Bun_password_verify pw' nh = Ok valid ->
       fst (fetch e' req' (snd (fetch e req w)))
       = if valid then session_response "Login successful" (createSessionToken e')
         else error_response 401 "Invalid credentials".
Proof.
  intros Ht Hacc Hc Hu Hv Hh.
  rewrite (reset_run e req w s cur new Ht Hacc Hc), Hu, Hv, Hh. simpl.
  destruct (updatePassword_then_lookup (createEmailHash (env_EMAIL_SALT e) s) nh
              (userDb w)) as (Hfound & _).
  rewrite Hu in Hfound. simpl in Hfound.
  split; [reflexivity |]. split; [reflexivity |]. split; [exact Hfound |].
  intros e' req' s' pw' valid Ht' Hc' Hs' Hv'.
  rewrite (login_run e' req' _ s' pw' Ht' Hc'), Hs'. simpl.
  rewrite Hfound. simpl. rewrite Hv'. now destruct valid.
Qed.

(** X15.  Past the guard the token plays no part in a reset: two requests
    with the same body and any two accepted tokens have the same result,
    whoever registered the identifier in the body. *)
Theorem reset_ignores_token_owner e req1 req2 w :
  targets req1 "POST" "/reset-password" -> targets req2 "POST" "/reset-password" ->
  json_body req1 = json_body req2 ->
  token_accepted (bearer_token req1) w = true ->
  token_accepted (bearer_token req2) w = true ->
  fetch e req1 w = fetch e req2 w.
Proof.
  intros Ht1 Ht2 Hbody Ha1 Ha2.
  destruct req1 as [m1 p1 a1 b1], req2 as [m2 p2 a2 b2].
  destruct Ht1 as [Hm1 Hp1], Ht2 as [Hm2 Hp2]. simpl in *. subst.
  unfold fetch, route. simpl.
  unfold handle_reset_password, mbind, M_bind.
  rewrite !session_ok_run, Ha1, Ha2. reflexivity.
Qed.

(** X16.  A login consults the verifier only for an identifier that has a
    record: the trace of a login with an unknown identifier has no
    verification event, that of a known one has the verification of the
    submitted password against the stored hash.  No login hashes a
    password or writes to the store. *)
Theorem login_verifies_known_users_only e req w s pw :
  targets req "POST" "/login" -> carries_credentials req s pw ->
  exists evs,
    trace (snd (fetch e req w)) = (trace w ++ evs)%list
    /\ userDb (snd (fetch e req w)) = userDb w
    /\ match UserDatabase.getUserByEmailHash (createEmailHash (env_EMAIL_SALT e) s)
               (userDb w) with
       | None => List.filter is_verify_event evs = []
       | Some u =>
           List.filter is_verify_event evs
           = [EvPasswordVerify pw (UserDatabase.password_hash u)]
       end
    /\ forall ev, In ev evs ->
         match ev with
         | EvPasswordHash _ | EvAddUser _ _ | EvUpdatePassword _ _ => False
         | _ => True
         end.
Proof.
  intros Ht Hc. rewrite (login_run e req w s pw Ht Hc).
  destruct (UserDatabase.getUserByEmailHash _ _) as [u |].
  - destruct (Bun_password_verify _ _) as [[] | err]; eexists; simpl;
      (split; [reflexivity |]); (split; [reflexivity |]); (split; [reflexivity |]);
      intros ev Hin; simpl in Hin;
      repeat (destruct Hin as [<- | Hin]; [exact I |]); destruct Hin.
  - eexists; simpl.
    (split; [reflexivity |]); (split; [reflexivity |]); (split; [reflexivity |]).
    intros ev Hin; simpl in Hin.
    repeat (destruct Hin as [<- | Hin]; [exact I |]); destruct Hin.
Qed.

(** ** The authorization header, again *)

(** X17.  The scheme is matched with its exact spelling and once.  For an
    active token [t] the headers ["bearer " + t] (another case) and
    ["Bearer Bearer " + t] (the scheme twice) are refused, and so is the
    scheme without token: the three protected routes answer as they do
    without header, and nothing is read. *)
Theorem scheme_is_case_sensitive w t e req :
  reachable w -> t ∈ activeSessions w ->
  authorization req = Some ("bearer " +:+ t)
  \/ authorization req = Some ("Bearer Bearer " +:+ t)
  \/ authorization req = Some "Bearer " ->
  token_accepted (bearer_token req) w = false
  /\ (targets req "GET" "/users" -> fetch e req w = (unauthorized_response, w))
  /\ (targets req "POST" "/reset-password" -> fetch e req w = (unauthorized_response, w))
  /\ (targets req "POST" "/logout" ->
      fetch e req w = (error_response 400 "No active session found", w)).
Proof.
  intros Hw Ht Hauth.
  destruct (reachable_tokens w Hw t Ht) as [_ Hchars].
  assert (Hrej : token_accepted (bearer_token req) w = false).
  { apply token_rejected_iff. unfold bearer_token.
    destruct Hauth as [-> | [-> | ->]].
    - right. right. exists ("bearer " +:+ t). split.
      + rewrite replace_indexOf.
        change ("bearer " +:+ t)
          with (String "b" (String "e" (String "a" (String "r" (String "e" (String "r"
                 (String " " t))))))).
        rewrite 7 indexOf_unfold. cbn [starts_with Ascii.eqb Bool.eqb andb].
        now rewrite (indexOf_Bearer_radix36 t Hchars).
      + intros Hin. destruct (reachable_tokens w Hw _ Hin) as [_ Hc]. discriminate Hc.
    - right. right. exists ("Bearer " +:+ t). split.
      + change ("Bearer Bearer " +:+ t) with ("Bearer " +:+ ("Bearer " +:+ t)).
        now rewrite (replace_prefix "Bearer " "" ("Bearer " +:+ t)).
      + intros Hin. destruct (reachable_tokens w Hw _ Hin) as [_ Hc]. discriminate Hc.
    - right. left. reflexivity. }
  split; [exact Hrej |]. split; [| split].
  - intros Hr. now rewrite (users_run e req w Hr), Hrej.
  - intros Hr. now apply reset_unauthorized_run.
  - intros Hr. now rewrite (logout_run e req w Hr), Hrej.
Qed.

(** ** The identifier hash *)

(** X22.  With a digest of 32 bytes, the identifier hash is a text of 64
    lower-case hexadecimal digits that encodes the digest of the salted
    normal form without loss. *)
Theorem createEmailHash_is_hex (salt : option string) (s : string) :
  (forall data, List.length (digest_SHA256 data) = 32%nat
                /\ all_bytes (digest_SHA256 data) = true) ->
  String.length (createEmailHash salt s) = 64%nat
  /\ all_chars hex_char (createEmailHash salt s) = true
  /\ exists data,
       createEmailHash salt s = hex_string (digest_SHA256 data)
       /\ hex_decode (createEmailHash salt s) = digest_SHA256 data.
Proof.
  intros Hdigest. unfold createEmailHash. cbv zeta.
  match goal with
  | |- context [digest_SHA256 ?data] =>
      destruct (Hdigest data) as [Hlen Hbytes];
      destruct (hex_string_round_trip (digest_SHA256 data) Hbytes) as (Hd & Hl & Hc);
      split; [now rewrite Hl, Hlen | split; [exact Hc | exists data; now split]]
  end.
Qed.

(** ** Session tokens *)

Lemma drop_chars_short (n : nat) (s : string) :
  (String.length s <= n)%nat -> drop_chars n s = EmptyString.
Proof.
  revert s. induction n as [| n IH]; intros [| c s] H; simpl in *;
    try reflexivity; try lia.
  apply IH. lia.
Qed.

(** X20.  A token is never empty, because the clock always contributes at
    least one digit; when the random number prints with two characters or
    fewer (zero prints as ["0"]) the token is the clock alone.  The clock
    part is [Date.now()] in radix 36 and reads back as that number, and a
    token made from a radix-36 random text consists of such characters. *)
Theorem createSessionToken_shape e :
  createSessionToken e <> ""
  /\ ((String.length (Math_random_36 e) <= 2)%nat ->
      createSessionToken e = toString_radix 36 (Date_now e))
  /\ (exists clock,
        createSessionToken e = drop_chars 2 (Math_random_36 e) +:+ clock
        /\ clock <> ""
        /\ (0 <= Date_now e -> radix_value 36 clock 0 = Z.to_N (Date_now e)))
  /\ (env_ok e = true -> all_chars radix36_char (createSessionToken e) = true).
Proof.
  split; [apply createSessionToken_nonempty |]. split; [| split].
  - intros Hshort. unfold createSessionToken, substring_from.
    now rewrite (drop_chars_short 2 _ Hshort).
  - exists (toString_radix 36 (Date_now e)). split; [reflexivity |].
    split; [apply toString_radix_nonempty |].
    intros Hnow. unfold toString_radix.
    destruct (Z.ltb_spec (Date_now e) 0) as [Hneg | _]; [lia |].
    rewrite N_toString_value by lia. now rewrite Zabs2N.abs_N_nonneg.
  - apply createSessionToken_chars.
Qed.

(** ** The start of the process *)


End ServerFacts.

(** * The executable runtime *)

Section ModelFacts.

Lemma model_toLowerCase_ascii (s : string) :
  ascii_text s = true -> ModelString.toLowerCase s = ascii_toLowerCase s.
Proof.
  unfold ascii_text, ascii_toLowerCase.
  induction s as [| c s IH]; [reflexivity |].
  intros H. cbn [all_chars] in H. apply andb_true_iff in H as [Hc Hs].
  specialize (IH Hs). cbn [map_chars]. rewrite <- IH.
  destruct s as [| d s]; [reflexivity |].
  cbn [ModelString.toLowerCase].
  replace (code c =? 195)%N with false; [reflexivity |].
  symmetry. apply N.eqb_neq. apply N.ltb_lt in Hc. lia.
Qed.

(** The stand-in for the string methods is the language on ASCII text. *)
Lemma model_runtime_ascii_laws : @ascii_laws model_runtime.
Proof.
  intros s Hs. split; [now apply model_toLowerCase_ascii | reflexivity].
Qed.

End ModelFacts.

(** * The handlers on concrete requests *)

Example sha256_abc :
  hex_string (SHA256.digest (string_bytes "abc"))
  = "ba7816bf8f01cfea414140de5dae2223b00361a396177a9cb410ff61f20015ad".
Proof. vm_compute. reflexivity. Qed.

Example sha256_empty :
  hex_string (SHA256.digest [])
  = "e3b0c44298fc1c149afbf4c8996fb92427ae41e4649b934ca495991b7852b855".
Proof. vm_compute. reflexivity. Qed.

Example normalize_sample :
  ascii_trim (ascii_toLowerCase " User@Example.com ") = "user@example.com".
Proof. reflexivity. Qed.

(** Outside ASCII: the capital E with acute accent (195 137) and its
    small letter (195 169), the sharp s (195 159) and the dotless i
    (196 177). *)
Example case_mapping_samples :
  ModelString.toLowerCase (String "195" (String "137" "@X.COM"))
  = String "195" (String "169" "@x.com")
  /\ ModelString.toUpperCase (String "195" (String "169" "@x.com"))
     = String "195" (String "137" "@X.COM")
  /\ ModelString.toUpperCase (String "195" (String "159" "@x.com")) = "SS@X.COM"
  /\ ModelString.toLowerCase (String "195" (String "159" "@x.com"))
     = String "195" (String "159" "@x.com")
  /\ ModelString.toUpperCase (String "196" (String "177" "@x.com")) = "I@X.COM"
  /\ ModelString.toLowerCase (String "196" (String "177" "@x.com"))
     = String "196" (String "177" "@x.com").
Proof. repeat split; reflexivity. Qed.

Example trim_inner_space : ascii_trim (String "009" "  a b  ") = "a b".
Proof. reflexivity. Qed.

Example replace_first_only :
  replace "Bearer " "" "Bearer abc Bearer d" = "abc Bearer d"
  /\ replace "Bearer " "" "xBearer y" = "xy"
  /\ replace "Bearer " "" "bearer y" = "bearer y".
Proof. repeat split; reflexivity. Qed.

Example toString_radix_samples :
  toString_radix 36 1295 = "zz" /\ toString_radix 36 1296 = "100"
  /\ toString_radix 16 255 = "ff" /\ toString_radix 36 0 = "0"
  /\ toString_radix 36 1762128000000 = "mhidiio0".
Proof. repeat split; reflexivity. Qed.

Example sample_token_value : sample_token = "4fzyo82mvyrmhidiio0".
Proof. reflexivity. Qed.

Example sample_email_hash_value :
  sample_email_hash = "e36dae0381711fe9dde45db08d766d17ca1275a4fb051646fb374ef5c114c27b".
Proof. vm_compute. reflexivity. Qed.

(** The end-to-end scenario of the specification: register, login, reset,
    login with the old secret, login with the new one. *)
Example end_to_end_scenario :
  let run := @fetch model_runtime in
  let login pw := post "/login" None (credentials "a@b.com" pw) in
  let '(r1, w1) := run sample_env (post "/register" None (credentials "a@b.com" "pw1"))
                       empty_world in
  let '(r2, w2) := run later_env (login "pw1") w1 in
  let '(r3, w3) :=
    run later_env
        (post "/reset-password" (Some ("Bearer " +:+ createSessionToken later_env))
              (VObj [("email", VStr "a@b.com"); ("currentPassword", VStr "pw1");
                     ("newPassword", VStr "pw2")])) w2 in
  let '(r4, w4) := run later_env (login "pw1") w3 in
  let '(r5, w5) := run later_env (login "pw2") w4 in
  List.map status [r1; r2; r3; r4; r5] = [200; 200; 200; 401; 200]
  /\ r4 = error_response 401 "Invalid credentials"
  /\ elements (activeSessions w5)
     = [createSessionToken later_env; createSessionToken sample_env].
Proof. vm_compute. repeat split. Qed.

(** ** Instances of the theorems *)

Ltac by_computation := vm_compute; reflexivity.

(** Splits the hypotheses of an instance off its conclusion. *)
Tactic Notation "discharge" "by" tactic(tac) :=
  repeat match goal with
         | |- _ /\ _ => split; [solve [tac] |]
         end.

Lemma register_existing_identifier_witness :
  targets register_sample "POST" "/register"
  /\ carries_credentials register_sample "user@example.com" (VStr "pw1")
  /\ @Bun_password_hash model_runtime (VStr "pw1") (password_entropy sample_env)
     = Ok sample_password_hash
  /\ @fetch model_runtime later_env register_sample registered_world
     = (error_response 400 "User already exists",
        traced [EvRequestJson;
                log_line "Registration request received for: " "user@example.com" "";
                EvPasswordHash (VStr "pw1");
                EvGetUserByEmailHash sample_email_hash;
                log_line "Registration denied - email already registered: "
                         "user@example.com" ""] registered_world).
Proof.
  assert (Ht : targets register_sample "POST" "/register") by (split; reflexivity).
  assert (Hc : carries_credentials register_sample "user@example.com" (VStr "pw1"))
    by (repeat split; discriminate).
  assert (Hh : @Bun_password_hash model_runtime (VStr "pw1") (password_entropy sample_env)
               = Ok sample_password_hash) by by_computation.
  refine (conj Ht (conj Hc (conj Hh _))).
  destruct (@register_existing_identifier model_runtime sample_env register_sample
              empty_world _ _ _ Ht Hc Hh) as [_ Hnew].
  destruct (Hnew eq_refl) as [_ Hagain].
  apply (Hagain later_env register_sample "user@example.com" (VStr "pw1")
           (match ModelPassword.hash (VStr "pw1") (password_entropy later_env) with
            | Ok encoded => encoded
            | Throw _ => EmptyString
            end) Ht Hc); reflexivity.
Defined.

(** C1, as stated, fails: when the identifier is already registered the
    answer is 400 "User already exists" and nothing is inserted, but the
    submitted password has been hashed, before the lookup. *)
Lemma register_again_hashes_secret_first :
  let req := post "/register" None (credentials " User@Example.com" "pw2") in
  let out := @fetch model_runtime later_env req registered_world in
  fst out = error_response 400 "User already exists"
  /\ userDb (snd out) = userDb registered_world
  /\ trace (snd out)
     = (trace registered_world
        ++ [EvRequestJson;
            EvConsoleLog "Registration request received for:  User@Example.com";
            EvPasswordHash (VStr "pw2");
            EvGetUserByEmailHash sample_email_hash;
            EvConsoleLog "Registration denied - email already registered:  User@Example.com"])%list.
Proof. vm_compute. repeat split. Qed.

Lemma login_failures_indistinguishable_witness :
  let unknown := post "/login" None (credentials "nobody@example.com" "pw1") in
  let wrong := post "/login" None (credentials "user@example.com" "guess") in
  targets unknown "POST" "/login"
  /\ carries_credentials unknown "nobody@example.com" (VStr "pw1")
  /\ targets wrong "POST" "/login"
  /\ carries_credentials wrong "user@example.com" (VStr "guess")
  /\ UserDatabase.getUserByEmailHash
       (@createEmailHash model_runtime (env_EMAIL_SALT later_env) "nobody@example.com")
       (userDb registered_world) = None
  /\ UserDatabase.getUserByEmailHash
       (@createEmailHash model_runtime (env_EMAIL_SALT later_env) "user@example.com")
       (userDb registered_world) = Some sample_row
  /\ @Bun_password_verify model_runtime (VStr "guess")
       (UserDatabase.password_hash sample_row) = Ok false
  /\ fst (@fetch model_runtime later_env unknown registered_world)
     = fst (@fetch model_runtime later_env wrong registered_world)
  /\ fst (@fetch model_runtime later_env unknown registered_world)
     = error_response 401 "Invalid credentials".
Proof.
  intros unknown wrong.
  assert (Ht1 : targets unknown "POST" "/login") by (split; reflexivity).
  assert (Hc1 : carries_credentials unknown "nobody@example.com" (VStr "pw1"))
    by (repeat split; discriminate).
  assert (Ht2 : targets wrong "POST" "/login") by (split; reflexivity).
  assert (Hc2 : carries_credentials wrong "user@example.com" (VStr "guess"))
    by (repeat split; discriminate).
  assert (Hu1 : UserDatabase.getUserByEmailHash
                  (@createEmailHash model_runtime (env_EMAIL_SALT later_env)
                     "nobody@example.com") (userDb registered_world) = None)
    by by_computation.
  assert (Hu2 : UserDatabase.getUserByEmailHash
                  (@createEmailHash model_runtime (env_EMAIL_SALT later_env)
                     "user@example.com") (userDb registered_world) = Some sample_row)
    by by_computation.
  assert (Hv : @Bun_password_verify model_runtime (VStr "guess")
                 (UserDatabase.password_hash sample_row) = Ok false)
    by by_computation.
  refine (conj Ht1 (conj Hc1 (conj Ht2 (conj Hc2 (conj Hu1 (conj Hu2 (conj Hv _))))))).
  exact (@login_failures_indistinguishable model_runtime later_env registered_world
           unknown wrong _ _ _ _ sample_row Ht1 Hc1 Ht2 Hc2 Hu1 Hu2 Hv).
Defined.



Lemma session_token_lifecycle_witness :
  (targets register_sample "POST" "/register" \/ targets register_sample "POST" "/login")
  /\ status (fst (@fetch model_runtime sample_env register_sample empty_world)) = 200
  /\ token_accepted (Some (createSessionToken sample_env)) registered_world = true.
Proof.
  assert (Ht : targets register_sample "POST" "/register"
               \/ targets register_sample "POST" "/login")
    by (left; split; reflexivity).
  assert (H200 : status (fst (@fetch model_runtime sample_env register_sample empty_world))
                 = 200) by by_computation.
  refine (conj Ht (conj H200 _)).
  exact (proj1 (proj2 (@session_token_lifecycle model_runtime sample_env register_sample
                         empty_world Ht H200))).
Defined.

Lemma reset_requires_current_secret_witness :
  let req := post "/reset-password" (Some ("Bearer " +:+ sample_token))
               (VObj [("email", VStr "user@example.com");
                      ("currentPassword", VStr "guess");
                      ("newPassword", VStr "pw2")]) in
  let out := @fetch model_runtime later_env req registered_world in
  targets req "POST" "/reset-password"
  /\ token_accepted (bearer_token req) registered_world = true
  /\ carries_reset req "user@example.com" (VStr "guess") (VStr "pw2")
  /\ UserDatabase.getUserByEmailHash
       (@createEmailHash model_runtime (env_EMAIL_SALT later_env) "user@example.com")
       (userDb registered_world) = Some sample_row
  /\ @Bun_password_verify model_runtime (VStr "guess")
       (UserDatabase.password_hash sample_row) = Ok false
  /\ fst out = error_response 401 "Current password is incorrect"
  /\ userDb (snd out) = userDb registered_world.
Proof.
  intros req out.
  assert (Ht : targets req "POST" "/reset-password") by (split; reflexivity).
  assert (Hacc : token_accepted (bearer_token req) registered_world = true)
    by by_computation.
  assert (Hc : carries_reset req "user@example.com" (VStr "guess") (VStr "pw2"))
    by (repeat split; discriminate).
  assert (Hu : UserDatabase.getUserByEmailHash
                 (@createEmailHash model_runtime (env_EMAIL_SALT later_env)
                    "user@example.com") (userDb registered_world) = Some sample_row)
    by by_computation.
  assert (Hv : @Bun_password_verify model_runtime (VStr "guess")
                 (UserDatabase.password_hash sample_row) = Ok false)
    by by_computation.
  refine (conj Ht (conj Hacc (conj Hc (conj Hu (conj Hv _))))).
  pose proof (@reset_requires_current_secret model_runtime later_env req registered_world
                _ _ _ sample_row Ht Hacc Hc Hu Hv) as (Hresp & Hdb & _).
  exact (conj Hresp Hdb).
Defined.

Lemma reset_unauthorized_before_body_witness :
  let req := post "/reset-password" None
               (VObj [("email", VStr "user@example.com");
                      ("currentPassword", VStr "pw1");
                      ("newPassword", VStr "pw2")]) in
  targets req "POST" "/reset-password"
  /\ (authorization req = None
      \/ bearer_token req = Some ""
      \/ (exists t, bearer_token req = Some t /\ t ∉ activeSessions registered_world))
  /\ @fetch model_runtime later_env req registered_world
     = (unauthorized_response, registered_world).
Proof.
  intros req.
  assert (Ht : targets req "POST" "/reset-password") by (split; reflexivity).
  assert (Hno : authorization req = None
                \/ bearer_token req = Some ""
                \/ (exists t, bearer_token req = Some t
                              /\ t ∉ activeSessions registered_world))
    by (left; reflexivity).
  refine (conj Ht (conj Hno _)).
  exact (@reset_unauthorized_before_body model_runtime later_env req registered_world
           Ht Hno).
Defined.

Lemma verify_outcome_at_boundary_witness :
  let req := post "/login" None (credentials "user@example.com" "pw1") in
  UserDatabase.getUserByEmailHash
    (@createEmailHash model_runtime (env_EMAIL_SALT sample_env) "user@example.com")
    (userDb malformed_world) = Some malformed_row
  /\ fst (@fetch model_runtime sample_env req malformed_world) = internal_server_error.
Proof.
  intros req.
  assert (Hu : UserDatabase.getUserByEmailHash
                 (@createEmailHash model_runtime (env_EMAIL_SALT sample_env)
                    "user@example.com") (userDb malformed_world) = Some malformed_row)
    by by_computation.
  refine (conj Hu _).
  pose proof (@verify_outcome_at_boundary model_runtime sample_env malformed_world
                "user@example.com" malformed_row Hu) as [Hlogin _].
  assert (Ht : targets req "POST" "/login") by (split; reflexivity).
  assert (Hc : carries_credentials req "user@example.com" (VStr "pw1"))
    by (repeat split; discriminate).
  destruct (Hlogin req (VStr "pw1") Ht Hc) as [_ Hthrow].
  exact (proj1 (Hthrow (RuntimeError "UnsupportedAlgorithm") eq_refl)).
Defined.

(** C7, as stated, fails: with a stored hash that is no encoded hash the
    verifier throws, and both login and reset answer 500 "Internal server
    error" instead of 401. *)
Lemma malformed_stored_hash_is_internal_error :
  let login := post "/login" None (credentials "user@example.com" "pw1") in
  let change := post "/reset-password" (Some ("Bearer " +:+ sample_token))
                  (VObj [("email", VStr "user@example.com");
                         ("currentPassword", VStr "pw1");
                         ("newPassword", VStr "pw2")]) in
  @Bun_password_verify model_runtime (VStr "pw1") "not-an-encoded-hash"
  = Throw (RuntimeError "UnsupportedAlgorithm")
  /\ fst (@fetch model_runtime sample_env login malformed_world) = internal_server_error
  /\ fst (@fetch model_runtime sample_env login malformed_world)
     <> error_response 401 "Invalid credentials"
  /\ fst (@fetch model_runtime sample_env change malformed_world) = internal_server_error
  /\ fst (@fetch model_runtime sample_env change malformed_world)
     <> error_response 401 "Current password is incorrect"
  /\ status internal_server_error = 500.
Proof.
  intros login change.
  assert (Hlogin : fst (@fetch model_runtime sample_env login malformed_world)
                   = internal_server_error) by by_computation.
  assert (Hchange : fst (@fetch model_runtime sample_env change malformed_world)
                    = internal_server_error) by by_computation.
  split; [by_computation |].
  split; [exact Hlogin |]. split; [rewrite Hlogin; discriminate |].
  split; [exact Hchange |]. split; [rewrite Hchange; discriminate | reflexivity].
Qed.

Lemma debug_hash_is_public_witness :
  let req := post "/debug/test-hash" (Some "no such token")
               (VObj [("email", VStr "User@example.com")]) in
  targets req "POST" "/debug/test-hash"
  /\ (parsed_body req)?."email" = VStr "User@example.com"
  /\ "User@example.com" <> ""
  /\ fst (@fetch model_runtime sample_env req empty_world)
     = json_response 200
         (VObj [("email", VStr "User@example.com");
                ("hash1", VStr sample_email_hash); ("hash2", VStr sample_email_hash);
                ("hash3", VStr sample_email_hash);
                ("same_email_same_hash", VBool true);
                ("case_insensitive", VBool true);
                ("deterministic", VBool true);
                ("message", VStr "Email hashing is working correctly")]).
Proof.
  intros req.
  assert (Ht : targets req "POST" "/debug/test-hash") by (split; reflexivity).
  assert (He : (parsed_body req)?."email" = VStr "User@example.com") by reflexivity.
  assert (Hs : "User@example.com" <> "") by discriminate.
  refine (conj Ht (conj He (conj Hs _))).
  pose proof (proj1 (@debug_hash_is_public model_runtime sample_env req empty_world
                       "User@example.com" Ht He Hs)) as Hrun.
  rewrite Hrun. by_computation.
Defined.

(** C9, as stated, fails: an [email] field that is not empty need not be
    a string.  A number or an array has no [toLowerCase]; the handler
    throws on the first call of [createEmailHash] and the request is
    answered 500, without any hash. *)
Lemma debug_non_string_email_gets_no_hash :
  let number := post "/debug/test-hash" None (VObj [("email", VNum 7)]) in
  let array := post "/debug/test-hash" None
                 (VObj [("email", VArr [VStr "user@example.com"])]) in
  truthy (parsed_body number)?."email" = true
  /\ truthy (parsed_body array)?."email" = true
  /\ fst (@fetch model_runtime sample_env number empty_world) = internal_server_error
  /\ fst (@fetch model_runtime sample_env array empty_world) = internal_server_error
  /\ trace (snd (@fetch model_runtime sample_env number empty_world))
     = [EvRequestJson; EvConsoleError (TypeError "email.toLowerCase is not a function")]
  /\ status internal_server_error = 500.
Proof. vm_compute. repeat split. Qed.

Lemma bearer_prefix_is_optional_witness :
  let req := get "/users" (Some sample_token) in
  @reachable model_runtime registered_world
  /\ sample_token ∈ activeSessions registered_world
  /\ authorization req = Some sample_token
  /\ status (fst (@fetch model_runtime later_env req registered_world)) = 200.
Proof.
  intros req.
  assert (Hw : @reachable model_runtime registered_world)
    by exact (@reachable_fetch model_runtime sample_env register_sample empty_world
                (@reachable_start model_runtime (UserDatabase.Table [] 0)) eq_refl).
  assert (Hin : sample_token ∈ activeSessions registered_world)
    by (refine (bool_decide_unpack _ _); vm_compute; exact I).
  assert (Hauth : authorization req = Some sample_token) by reflexivity.
  refine (conj Hw (conj Hin (conj Hauth _))).
  pose proof (@bearer_prefix_is_optional model_runtime registered_world sample_token
                later_env req Hw Hin Hauth) as (_ & _ & Husers & _).
  apply Husers. split; reflexivity.
Defined.

(** ** Instances of the further properties *)

Lemma fetch_preserves_store_ok_witness :
  store_ok (userDb empty_world)
  /\ store_ok (userDb registered_world).
Proof.
  assert (Hok : store_ok (userDb empty_world))
    by (repeat split; simpl; constructor).
  refine (conj Hok _).
  exact (proj1 (@fetch_preserves_store_ok model_runtime sample_env register_sample
                  empty_world Hok)).
Defined.

Lemma stored_user_is_found_witness :
  let db := UserDatabase.Table [sample_row] 1 in
  NoDup (List.map UserDatabase.email_hash (UserDatabase.rows db))
  /\ (In sample_row (UserDatabase.rows db)
      <-> UserDatabase.getUserByEmailHash (UserDatabase.email_hash sample_row) db
          = Some sample_row).
Proof.
  intros db.
  assert (Hnd : NoDup (List.map UserDatabase.email_hash (UserDatabase.rows db)))
    by (simpl; apply NoDup_singleton).
  refine (conj Hnd _).
  exact (proj1 (stored_user_is_found db sample_row Hnd)).
Defined.

Lemma users_listing_witness :
  let req := get "/users" None in
  targets req "GET" "/users"
  /\ @fetch model_runtime later_env req registered_world
     = (unauthorized_response, registered_world).
Proof.
  intros req.
  assert (Ht : targets req "GET" "/users") by (split; reflexivity).
  refine (conj Ht _).
  exact (proj1 (@users_listing model_runtime later_env req registered_world Ht) eq_refl).
Defined.

Lemma non_string_email_is_internal_error_witness :
  let req := post "/login" None (VObj [("email", VNum 7); ("password", VStr "pw1")]) in
  truthy (parsed_body req)?."email" = true
  /\ (forall s, (parsed_body req)?."email" <> VStr s)
  /\ (targets req "POST" "/login" /\ truthy (parsed_body req)?."password" = true)
  /\ exists evs,
       @fetch model_runtime sample_env req empty_world
       = (internal_server_error, traced evs empty_world)
       /\ forallb quiet_event evs = true.
Proof.
  intros req.
  assert (Htr : truthy (parsed_body req)?."email" = true) by reflexivity.
  assert (Hns : forall s, (parsed_body req)?."email" <> VStr s) by (intros s; discriminate).
  assert (Hr : targets req "POST" "/login" /\ truthy (parsed_body req)?."password" = true)
    by (repeat split; reflexivity).
  refine (conj Htr (conj Hns (conj Hr _))).
  exact (@non_string_email_is_internal_error model_runtime sample_env req empty_world
           Htr Hns (or_intror (or_introl Hr))).
Defined.

Lemma internal_error_changes_nothing_witness :
  let req := post "/register" None (VObj [("email", VNum 7); ("password", VStr "pw1")]) in
  status (fst (@fetch model_runtime sample_env req registered_world)) = 500
  /\ userDb (snd (@fetch model_runtime sample_env req registered_world))
     = userDb registered_world.
Proof.
  intros req.
  assert (H500 : status (fst (@fetch model_runtime sample_env req registered_world)) = 500)
    by by_computation.
  refine (conj H500 _).
  exact (proj1 (proj2 (@internal_error_changes_nothing model_runtime sample_env req
                         registered_world H500))).
Defined.

Lemma register_then_login_witness :
  let login := post "/login" None (credentials "USER@example.com " "pw1") in
  targets register_sample "POST" "/register"
  /\ carries_credentials register_sample "user@example.com" (VStr "pw1")
  /\ @Bun_password_hash model_runtime (VStr "pw1") (password_entropy sample_env)
     = Ok sample_password_hash
  /\ UserDatabase.getUserByEmailHash
       (@createEmailHash model_runtime (env_EMAIL_SALT sample_env) "user@example.com")
       (userDb empty_world) = None
  /\ fst (@fetch model_runtime later_env login registered_world)
     = session_response "Login successful" (createSessionToken later_env).
Proof.
  intros login.
  assert (Ht : targets register_sample "POST" "/register") by (split; reflexivity).
  assert (Hc : carries_credentials register_sample "user@example.com" (VStr "pw1"))
    by (repeat split; discriminate).
  assert (Hh : @Bun_password_hash model_runtime (VStr "pw1") (password_entropy sample_env)
               = Ok sample_password_hash) by by_computation.
  assert (Hu : UserDatabase.getUserByEmailHash
                 (@createEmailHash model_runtime (env_EMAIL_SALT sample_env)
                    "user@example.com") (userDb empty_world) = None) by reflexivity.
  refine (conj Ht (conj Hc (conj Hh (conj Hu _)))).
  assert (Ht' : targets login "POST" "/login") by (split; reflexivity).
  assert (Hc' : carries_credentials login "USER@example.com " (VStr "pw1"))
    by (repeat split; discriminate).
  assert (Hs' : @createEmailHash model_runtime (env_EMAIL_SALT later_env) "USER@example.com "
                = @createEmailHash model_runtime (env_EMAIL_SALT sample_env)
                    "user@example.com") by by_computation.
  assert (Hv : @Bun_password_verify model_runtime (VStr "pw1") sample_password_hash
               = Ok true) by by_computation.
  exact (@register_then_login model_runtime sample_env register_sample empty_world
           _ _ _ Ht Hc Hh Hu later_env login _ _ true Ht' Hc' Hs' Hv).
Defined.

Lemma reset_then_login_witness :
  let req := post "/reset-password" (Some ("Bearer " +:+ sample_token))
               (VObj [("email", VStr "user@example.com");
                      ("currentPassword", VStr "pw1");
                      ("newPassword", VStr "pw2")]) in
  let nh := match ModelPassword.hash (VStr "pw2") (password_entropy later_env) with
            | Ok encoded => encoded
            | Throw _ => EmptyString
            end in
  targets req "POST" "/reset-password"
  /\ token_accepted (bearer_token req) registered_world = true
  /\ carries_reset req "user@example.com" (VStr "pw1") (VStr "pw2")
  /\ UserDatabase.getUserByEmailHash
       (@createEmailHash model_runtime (env_EMAIL_SALT later_env) "user@example.com")
       (userDb registered_world) = Some sample_row
  /\ @Bun_password_verify model_runtime (VStr "pw1")
       (UserDatabase.password_hash sample_row) = Ok true
  /\ @Bun_password_hash model_runtime (VStr "pw2") (password_entropy later_env) = Ok nh
  /\ fst (@fetch model_runtime later_env req registered_world) = reset_response.
Proof.
  intros req nh.
  assert (Ht : targets req "POST" "/reset-password") by (split; reflexivity).
  assert (Hacc : token_accepted (bearer_token req) registered_world = true)
    by by_computation.
  assert (Hc : carries_reset req "user@example.com" (VStr "pw1") (VStr "pw2"))
    by (repeat split; discriminate).
  assert (Hu : UserDatabase.getUserByEmailHash
                 (@createEmailHash model_runtime (env_EMAIL_SALT later_env)
                    "user@example.com") (userDb registered_world) = Some sample_row)
    by by_computation.
  assert (Hv : @Bun_password_verify model_runtime (VStr "pw1")
                 (UserDatabase.password_hash sample_row) = Ok true) by by_computation.
  assert (Hh : @Bun_password_hash model_runtime (VStr "pw2") (password_entropy later_env)
               = Ok nh) by reflexivity.
  refine (conj Ht (conj Hacc (conj Hc (conj Hu (conj Hv (conj Hh _)))))).
  exact (proj1 (@reset_then_login model_runtime later_env req registered_world
                  _ _ _ sample_row nh Ht Hacc Hc Hu Hv Hh)).
Defined.

Lemma reset_ignores_token_owner_witness :
  let payload := VObj [("email", VStr "user@example.com");
                       ("currentPassword", VStr "pw1");
                       ("newPassword", VStr "pw2")] in
  let req1 := post "/reset-password" (Some ("Bearer " +:+ sample_token)) payload in
  let req2 := post "/reset-password" (Some sample_token) payload in
  targets req1 "POST" "/reset-password" /\ targets req2 "POST" "/reset-password"
  /\ json_body req1 = json_body req2
  /\ token_accepted (bearer_token req1) registered_world = true
  /\ token_accepted (bearer_token req2) registered_world = true
  /\ @fetch model_runtime later_env req1 registered_world
     = @fetch model_runtime later_env req2 registered_world.
Proof.
  intros payload req1 req2.
  assert (Ht1 : targets req1 "POST" "/reset-password") by (split; reflexivity).
  assert (Ht2 : targets req2 "POST" "/reset-password") by (split; reflexivity).
  assert (Hb : json_body req1 = json_body req2) by reflexivity.
  assert (Ha1 : token_accepted (bearer_token req1) registered_world = true)
    by by_computation.
  assert (Ha2 : token_accepted (bearer_token req2) registered_world = true)
    by by_computation.
  refine (conj Ht1 (conj Ht2 (conj Hb (conj Ha1 (conj Ha2 _))))).
  exact (@reset_ignores_token_owner model_runtime later_env req1 req2 registered_world
           Ht1 Ht2 Hb Ha1 Ha2).
Defined.

Lemma login_verifies_known_users_only_witness :
  let req := post "/login" None (credentials "nobody@example.com" "pw1") in
  targets req "POST" "/login"
  /\ carries_credentials req "nobody@example.com" (VStr "pw1")
  /\ userDb (snd (@fetch model_runtime later_env req registered_world))
     = userDb registered_world.
Proof.
  intros req.
  assert (Ht : targets req "POST" "/login") by (split; reflexivity).
  assert (Hc : carries_credentials req "nobody@example.com" (VStr "pw1"))
    by (repeat split; discriminate).
  refine (conj Ht (conj Hc _)).
  destruct (@login_verifies_known_users_only model_runtime later_env req registered_world
              _ _ Ht Hc) as (evs & _ & Hdb & _).
  exact Hdb.
Defined.

Lemma scheme_is_case_sensitive_witness :
  let req := get "/users" (Some ("bearer " +:+ sample_token)) in
  @reachable model_runtime registered_world
  /\ sample_token ∈ activeSessions registered_world
  /\ authorization req = Some ("bearer " +:+ sample_token)
  /\ token_accepted (bearer_token req) registered_world = false.
Proof.
  intros req.
  assert (Hw : @reachable model_runtime registered_world)
    by exact (@reachable_fetch model_runtime sample_env register_sample empty_world
                (@reachable_start model_runtime (UserDatabase.Table [] 0)) eq_refl).
  assert (Hin : sample_token ∈ activeSessions registered_world)
    by (refine (bool_decide_unpack _ _); vm_compute; exact I).
  assert (Hauth : authorization req = Some ("bearer " +:+ sample_token)) by reflexivity.
  refine (conj Hw (conj Hin (conj Hauth _))).
  exact (proj1 (@scheme_is_case_sensitive model_runtime registered_world sample_token
                  later_env req Hw Hin (or_introl Hauth))).
Defined.

Lemma hex_string_round_trip_witness :
  all_bytes [0; 10; 255; 16]%N = true
  /\ hex_string [0; 10; 255; 16]%N = "000aff10"
  /\ hex_decode (hex_string [0; 10; 255; 16]%N) = [0; 10; 255; 16]%N.
Proof.
  assert (Hb : all_bytes [0; 10; 255; 16]%N = true) by reflexivity.
  refine (conj Hb (conj eq_refl _)).
  exact (proj1 (hex_string_round_trip [0; 10; 255; 16]%N Hb)).
Defined.

Lemma createEmailHash_is_hex_witness :
  (forall data, List.length (@digest_SHA256 model_runtime data) = 32%nat
                /\ all_bytes (@digest_SHA256 model_runtime data) = true)
  /\ String.length (@createEmailHash model_runtime (Some "pepper") "user@example.com")
     = 64%nat.
Proof.
  assert (Hd : forall data, List.length (@digest_SHA256 model_runtime data) = 32%nat
                            /\ all_bytes (@digest_SHA256 model_runtime data) = true)
    by exact digest_shape.
  refine (conj Hd _).
  exact (proj1 (@createEmailHash_is_hex model_runtime (Some "pepper") "user@example.com" Hd)).
Defined.
